(** * Endless Gateway API: the proxy endpoint of [src/index.js]

    A shallow embedding of the request handler
    [app.post("/api/proxy/:service", ...)] and of its helpers
    [getUserApiKey], [sendJsonRequest] and [sendFormRequest], together with
    the earlier variant of the same handler found in [src/unnamed/part_000].

    The handler is [async] code that awaits three external services and
    may throw at every step.  It is embedded in a small monad [M] that
    carries the outcome (a value or a thrown [Error]) and the list of
    external calls issued so far, in order.  The answers of the external
    services are the fields of a [world].

    JavaScript values are embedded as the inductive type [JS.value];
    header strings are Rocq strings (Node decodes header bytes as
    latin1, one character per byte). *)

From Stdlib Require Import String Ascii List ZArith Bool Lia DecimalString.
From Stdlib Require Strings.Byte.
Import ListNotations.
Open Scope string_scope.
Set Warnings "-register-all".

(** ** JavaScript values and the built-ins the handler uses *)

Module JS.

(** A number is carried as its [Number::toString] rendering: the gateway
    never computes with numbers, it only tests them for truthiness and
    passes them on.  [Builtin n] is a member of [Object.prototype]
    ([constructor], [toString], ...) reached by property lookup on an
    object literal; [Obj] lists the own enumerable properties in
    iteration order. *)
Inductive value : Type :=
| Undefined
| Null
| Bool (b : bool)
| Num (repr : string)
| Str (s : string)
| Arr (items : list value)
| Obj (props : list (string * value))
| Builtin (name : string).

(** [ToBoolean]. *)
Definition truthy (v : value) : bool :=
  match v with
  | Undefined | Null => false
  | Bool b => b
  | Num r => negb ((r =? "0") || (r =? "NaN"))
  | Str s => negb (s =? "")
  | Arr _ | Obj _ | Builtin _ => true
  end.

(** [s.startsWith(p)]. *)
Definition startsWith (s p : string) : bool := prefix p s.

(** [h?.startsWith(p)] on a header that may be [undefined]. *)
Definition opt_startsWith (h : option string) (p : string) : value :=
  match h with
  | None => Undefined
  | Some s => Bool (startsWith s p)
  end.

(** [s.split(sep)] for a non-empty separator: scan left to right; where
    [sep] matches, close the current piece and resume after the match.
    [skip] counts the characters of a match still to be passed over,
    [cur] is the piece being built. *)
Fixpoint split_from (sep : string) (skip : nat) (cur s : string) : list string :=
  match s with
  | EmptyString => [cur]
  | String c rest =>
      match skip with
      | S k => split_from sep k cur rest
      | O =>
          if prefix sep s
          then cur :: split_from sep (String.length sep - 1) "" rest
          else split_from sep 0 (cur ++ String c "") rest
      end
  end.

Definition split (s sep : string) : list string := split_from sep 0 "" s.

(** [a[i]] on an array of strings: [undefined] out of range. *)
Definition index (a : list string) (i : nat) : value :=
  match nth_error a i with
  | Some s => Str s
  | None => Undefined
  end.

Fixpoint assoc {A : Type} (k : string) (l : list (string * A)) : option A :=
  match l with
  | [] => None
  | (k', v) :: l' => if k' =? k then Some v else assoc k l'
  end.

(** [v.name] for a name that no built-in prototype defines (the handler
    reads [api] and [key] only): the own property, else [undefined]. *)
Definition get (v : value) (name : string) : value :=
  match v with
  | Obj props =>
      match assoc name props with
      | Some x => x
      | None => Undefined
      end
  | _ => Undefined
  end.

(** [v?.name]. *)
Definition opt_get (v : value) (name : string) : value :=
  match v with
  | Undefined | Null => Undefined
  | _ => get v name
  end.

(** The members every object literal inherits from [Object.prototype]. *)
Definition object_prototype : list string :=
  [ "constructor"; "__defineGetter__"; "__defineSetter__"; "hasOwnProperty";
    "__lookupGetter__"; "__lookupSetter__"; "isPrototypeOf";
    "propertyIsEnumerable"; "toString"; "valueOf"; "__proto__";
    "toLocaleString" ].

Definition mem (k : string) (l : list string) : bool :=
  existsb (String.eqb k) l.

(** [o[k]] on an object literal [o] whose own properties are strings:
    own property first, then the prototype chain. *)
Definition lookup (o : list (string * string)) (k : string) : value :=
  match assoc k o with
  | Some u => Str u
  | None => if mem k object_prototype then Builtin k else Undefined
  end.

Definition nat_to_string (n : nat) : string :=
  NilEmpty.string_of_uint (Nat.to_uint n).

Fixpoint indexed {A : Type} (i : nat) (l : list A) : list (string * A) :=
  match l with
  | [] => []
  | x :: l' => (nat_to_string i, x) :: indexed (S i) l'
  end.

Fixpoint chars (s : string) : list value :=
  match s with
  | EmptyString => []
  | String c s' => Str (String c "") :: chars s'
  end.

(** [Object.entries(v)]: [None] stands for the [TypeError] raised on
    [undefined] and [null]. *)
Definition entries (v : value) : option (list (string * value)) :=
  match v with
  | Undefined | Null => None
  | Obj props => Some props
  | Arr items => Some (indexed 0 items)
  | Str s => Some (indexed 0 (chars s))
  | Bool _ | Num _ | Builtin _ => Some []
  end.

End JS.

(** ** Errors, external calls and the monad of the handler *)

(** [new Error(message)]. *)
Record error : Type := Error { message : string }.

(** The file multer stores in memory for the form field [image]. *)
Record upload : Type := { buffer : list Byte.byte; originalname : string }.

(** The values the handler appends to a [FormData]: the buffer of the
    uploaded file, or a value of the request body. *)
Inductive form_value : Type :=
| Buffer (b : list Byte.byte)
| Plain (v : JS.value).

(** One part of a [FormData], as [form.append(field, value, filename)]
    stores it: the bytes of a buffer, or the text of a field. *)
Inductive part_content : Type :=
| Bytes (b : list Byte.byte)
| Text (s : string).

Record part : Type :=
  { field : string; content : part_content; filename : option string }.

(** The second argument of [axios.post]. *)
Inductive payload : Type :=
| JsonData (body : JS.value)
| FormData (parts : list part).

Definition header_list : Type := list (string * JS.value).

(** What a downstream service answers. *)
Record http_response : Type :=
  { status : Z; headers : list (string * string); data : list Byte.byte }.

(** The calls that leave the process. *)
Inductive event : Type :=
| VerifyIdToken (idToken : JS.value)
| FirestoreGet (uid : string)
| HttpPost (url : string) (body : payload) (hdrs : header_list).

(** The answers of the outside world.
    - [verifyIdToken]: [admin.auth().verifyIdToken]; [inl m] rejects with
      message [m], [inr uid] resolves to a decoded token with that [uid].
    - [users]: [db.collection("users").doc(uid).get()]; [inl m] rejects,
      [inr None] is a snapshot with [exists = false], [inr (Some d)] a
      snapshot whose [data()] is [d].
    - [downstream]: the network behind [axios.post]; [inl m] is a transport
      failure (refused, timeout, TLS, DNS), [inr r] the final HTTP response.
    - [form_boundary]: the boundary [FormData] draws for [getHeaders()].
    - [invalid_url_message]: the message of the error the HTTP client
      raises when its target is not a URL string.
    - [unsupported_value_message]: the message of the error raised when a
      value that is neither text, number nor array is appended to a
      [FormData]. *)
Record world : Type :=
  { verifyIdToken : JS.value -> string + string;
    users : string -> string + option JS.value;
    downstream : string -> payload -> header_list -> string + http_response;
    form_boundary : string;
    invalid_url_message : string;
    unsupported_value_message : string }.

Inductive outcome (A : Type) : Type :=
| Returned (a : A)
| Thrown (e : error).
Arguments Returned {A} a.
Arguments Thrown {A} e.

(** A computation yields the external calls it made and how it ended. *)
Definition M (A : Type) : Type := list event * outcome A.

Definition ret {A : Type} (a : A) : M A := ([], Returned a).
Definition throw {A : Type} (e : error) : M A := ([], Thrown e).
Definition emit (e : event) : M unit := ([e], Returned tt).

Definition bind {A B : Type} (m : M A) (k : A -> M B) : M B :=
  match m with
  | (t, Returned a) => let (t', o) := k a in ((t ++ t')%list, o)
  | (t, Thrown e) => (t, Thrown e)
  end.

(** [try { m } catch (err) { h err }]. *)
Definition try_catch {A : Type} (m : M A) (h : error -> M A) : M A :=
  match m with
  | (t, Returned a) => (t, Returned a)
  | (t, Thrown e) => let (t', o) := h e in ((t ++ t')%list, o)
  end.

Notation "x <- m ;; k" := (bind m (fun x => k))
  (at level 61, m at next level, right associativity).
Notation "m ;; k" := (bind m (fun _ => k))
  (at level 61, right associativity).

Definition trace {A : Type} (m : M A) : list event := fst m.
Definition result {A : Type} (m : M A) : outcome A := snd m.

(** ** The request and the reply *)

(** What Express hands to the handler: [req.headers.authorization],
    [req.params.service], [req.body] and [req.file]. *)
Record request : Type :=
  { authorization : option string;
    service : string;
    body : JS.value;
    file : option upload }.

(** What the handler does with [res]: either
    [res.status(code).json(obj)], or
    [res.set("Content-Type", v); res.send(bytes)], which leaves the status
    of the reply at its default, 200. *)
Inductive reply : Type :=
| Json (code : Z) (obj : JS.value)
| Send (content_type : JS.value) (bytes : list Byte.byte).

Definition reply_status (r : reply) : Z :=
  match r with
  | Json code _ => code
  | Send _ _ => 200
  end.

Definition Z_to_string (z : Z) : string :=
  NilEmpty.string_of_int (Z.to_int z).

(** The axios default, [validateStatus(status)] =
    [status >= 200 && status < 300]: the promise resolves for a status in
    the 2xx range and rejects for every other one.  Neither
    [sendJsonRequest] nor [sendFormRequest] overrides it. *)
Definition validateStatus (s : Z) : bool := (200 <=? s)%Z && (s <? 300)%Z.

(** [response.headers["content-type"]]; Node lower-cases the names of
    received headers. *)
Definition header (r : http_response) (name : string) : JS.value :=
  match JS.assoc name (headers r) with
  | Some v => JS.Str v
  | None => JS.Undefined
  end.

(** [Buffer.from(buf)] copies the bytes. *)
Definition Buffer_from (b : list Byte.byte) : list Byte.byte := b.

(** The static route table of [src/index.js]. *)
Definition serviceMap : list (string * string) :=
  [ ("vectors", "https://endless-vectors-gxda.onrender.com/convert");
    ("images", "https://endless-images-second-life.onrender.com/convert");
    ("contact", "https://endless-bureaucracy.onrender.com/contact");
    ("profilepicture", "https://endless-bureaucracy.onrender.com/upload-profile-pic");
    ("profilename", "https://endless-bureaucracy.onrender.com/update-profile-name");
    ("codedetect", "https://endless-code-tools-api.onrender.com/detect");
    ("codecompact", "https://endless-code-tools-api.onrender.com/compact");
    ("codeuncompact", "https://endless-code-tools-api.onrender.com/uncompact");
    ("codeformat", "https://endless-code-tools-api.onrender.com/format") ].

Section Gateway.

Variable w : world.

(** [axios.post(url, data, { headers, responseType: "arraybuffer" })].
    A string target is requested over the network; the promise resolves
    with the response when [validateStatus] accepts its status and
    rejects otherwise, as it does on a transport failure.  A target that
    is not a string is refused before anything is sent. *)
Definition axios_post (url : JS.value) (d : payload) (hs : header_list)
  : M http_response :=
  match url with
  | JS.Str u =>
      emit (HttpPost u d hs) ;;
      match downstream w u d hs with
      | inl m => throw (Error m)
      | inr r =>
          if validateStatus (status r) then ret r
          else throw (Error ("Request failed with status code "
                             ++ Z_to_string (status r)))
      end
  | _ => throw (Error (invalid_url_message w))
  end.

(** [form.getHeaders()]. *)
Definition getHeaders : header_list :=
  [ ("content-type",
     JS.Str ("multipart/form-data; boundary=" ++ form_boundary w)) ].

(** [getUserApiKey(req)].  The dynamic [import("firebase-admin")] that
    follows the header test only loads the module and is left out. *)
Definition getUserApiKey (req : request) : M JS.value :=
  let authHeader := authorization req in
  if negb (JS.truthy (JS.opt_startsWith authHeader "Bearer "))
  then throw (Error "Missing or invalid Authorization header")
  else
    match authHeader with
    | None => throw (Error "Cannot read properties of undefined (reading 'split')")
    | Some h =>
        let idToken := JS.index (JS.split h "Bearer ") 1 in
        emit (VerifyIdToken idToken) ;;
        match verifyIdToken w idToken with
        | inl m => throw (Error m)
        | inr uid =>
            emit (FirestoreGet uid) ;;
            match users w uid with
            | inl m => throw (Error m)
            | inr userDoc =>
                match userDoc with
                | None => throw (Error "User not found in Firestore")
                | Some d =>
                    let apiKey := JS.opt_get (JS.opt_get d "api") "key" in
                    if negb (JS.truthy apiKey)
                    then throw (Error "User API key not found")
                    else ret apiKey
                end
            end
        end
    end.

Definition sendJsonRequest (targetUrl : JS.value) (b : JS.value) (apiKey : JS.value)
  : M http_response :=
  axios_post targetUrl (JsonData b)
    [ ("Content-Type", JS.Str "application/json"); ("x-api-key", apiKey) ].

(** [form.append(field, value, filename)] of the form-data package.  A
    buffer and a string are stored as they are, a number as its string; an
    array is refused with the error below, and so is, with a message of the
    library's, any other value.  (In [src/index.js] the values come from
    multer, which builds [req.body] from strings, arrays and nested objects
    only.) *)
Definition form_append (form : list part) (name : string) (value : form_value)
    (fname : option string) : M (list part) :=
  match value with
  | Buffer b =>
      ret (form ++ [ {| field := name; content := Bytes b; filename := fname |} ])%list
  | Plain (JS.Str s) =>
      ret (form ++ [ {| field := name; content := Text s; filename := fname |} ])%list
  | Plain (JS.Num r) =>
      ret (form ++ [ {| field := name; content := Text r; filename := fname |} ])%list
  | Plain (JS.Arr _) => throw (Error "Arrays are not supported.")
  | Plain _ => throw (Error (unsupported_value_message w))
  end.

(** [for (const [key, value] of entries) form.append(key, value)]. *)
Fixpoint append_fields (form : list part) (es : list (string * JS.value))
  : M (list part) :=
  match es with
  | [] => ret form
  | (key, value) :: es' =>
      form' <- form_append form key (Plain value) None ;;
      append_fields form' es'
  end.

Definition sendFormRequest (targetUrl : JS.value) (f : option upload)
    (b : JS.value) (apiKey : JS.value) : M http_response :=
  let form := [] in
  form <-
    match f with
    | Some f' => form_append form "image" (Buffer (buffer f')) (Some (originalname f'))
    | None => ret form
    end ;;
  match JS.entries b with
  | None => throw (Error "Cannot convert undefined or null to object")
  | Some es =>
      form <- append_fields form es ;;
      axios_post targetUrl (FormData form)
        (getHeaders ++ [ ("x-api-key", apiKey) ])%list
  end.

Definition proxy_failed (err : error) : M reply :=
  ret (Json 500 (JS.Obj [ ("error", JS.Str "Proxy failed");
                          ("details", JS.Str (message err)) ])).

Definition unknown_service : reply :=
  Json 400 (JS.Obj [ ("error", JS.Str "Unknown service") ]).

(** [app.post("/api/proxy/:service", upload.single("image"), ...)] of
    [src/index.js]. *)
Definition handler (req : request) : M reply :=
  try_catch
    (let service := service req in
     apiKey <- getUserApiKey req ;;
     let targetUrl := JS.lookup serviceMap service in
     if negb (JS.truthy targetUrl) then ret unknown_service
     else
       response <-
         match file req with
         | Some f => sendFormRequest targetUrl (Some f) (body req) apiKey
         | None => sendJsonRequest targetUrl (body req) apiKey
         end ;;
       ret (Send (header response "content-type")
                 (Buffer_from (data response))))
    proxy_failed.

End Gateway.

(** ** The earlier variant of the handler ([src/unnamed/part_000]) *)

Module Part000.

Definition serviceMap : list (string * string) :=
  [ ("vectors", "https://endless-vectors-gxda.onrender.com/convert");
    ("images", "https://endless-images-second-life.onrender.com/convert");
    ("contact", "https://endless-bureaucracy.onrender.com/contact");
    ("profilepicture", "https://endless-bureaucracy.onrender.com/upload-profile-pic");
    ("profilename", "https://endless-bureaucracy.onrender.com/update-profile-name") ].

(** Same pipeline, but the outbound request is always built as a
    [FormData], with or without a file; the inlined code is that of
    [sendFormRequest]. *)
Definition handler (w : world) (req : request) : M reply :=
  try_catch
    (let service := service req in
     apiKey <- getUserApiKey w req ;;
     let targetUrl := JS.lookup serviceMap service in
     if negb (JS.truthy targetUrl) then ret unknown_service
     else
       response <- sendFormRequest w targetUrl (file req) (body req) apiKey ;;
       ret (Send (header response "content-type")
                 (Buffer_from (data response))))
    proxy_failed.

End Part000.

(** ** Vocabulary used to state the properties *)

(** The header pattern [Bearer <token>]: the prefix, then the token text. *)
Definition bearer_pattern (h : string) : Prop :=
  exists token : string, h = "Bearer " ++ token.

(** [sep] occurs somewhere in [s]. *)
Definition occurs (sep s : string) : Prop :=
  exists a b : string, s = a ++ sep ++ b.

(** The text of [s] that comes before the first occurrence of [sep]; all
    of [s] when [sep] does not occur. *)
Fixpoint before (sep s : string) : string :=
  match s with
  | EmptyString => EmptyString
  | String c s' => if prefix sep s then EmptyString else String c (before sep s')
  end.

Definition lower_ascii (c : ascii) : ascii :=
  let n := nat_of_ascii c in
  if (65 <=? n)%nat && (n <=? 90)%nat then ascii_of_nat (n + 32) else c.

Fixpoint lower (s : string) : string :=
  match s with
  | EmptyString => EmptyString
  | String c s' => String (lower_ascii c) (lower s')
  end.

Fixpoint contains (s sub : string) : bool :=
  prefix sub s ||
  match s with
  | EmptyString => false
  | String _ s' => contains s' sub
  end.

(** A message mentions a phrase when it contains it, letter case apart. *)
Definition mentions (msg phrase : string) : bool :=
  contains (lower msg) (lower phrase).

(** The reply of the [catch] block for an error with message [m]. *)
Definition failure (m : string) : reply :=
  Json 500 (JS.Obj [ ("error", JS.Str "Proxy failed"); ("details", JS.Str m) ]).

(** The reply that follows an outbound call, from what the network gave. *)
Definition settle (answer : string + http_response) : reply :=
  match answer with
  | inl m => failure m
  | inr r =>
      if validateStatus (status r)
      then Send (header r "content-type") (data r)
      else failure ("Request failed with status code " ++ Z_to_string (status r))
  end.

(** The headers of the two translation modes. *)
Definition json_headers (secret : JS.value) : header_list :=
  [ ("Content-Type", JS.Str "application/json"); ("x-api-key", secret) ].

Definition form_headers (w : world) (secret : JS.value) : header_list :=
  [ ("content-type", JS.Str ("multipart/form-data; boundary=" ++ form_boundary w));
    ("x-api-key", secret) ].

(** The part that carries the uploaded file. *)
Definition image_part (f : upload) : part :=
  {| field := "image"; content := Bytes (buffer f);
     filename := Some (originalname f) |}.

(** The string a field value is written as. *)
Definition field_text (v : JS.value) : option string :=
  match v with
  | JS.Str s => Some s
  | JS.Num r => Some r
  | _ => None
  end.

(** [p] is the part of the body field [e]: same name, the value as a
    string, no file name. *)
Inductive field_part : string * JS.value -> part -> Prop :=
| field_part_intro (k : string) (v : JS.value) (s : string) :
    field_text v = Some s ->
    field_part (k, v) {| field := k; content := Text s; filename := None |}.

Definition is_post (e : event) : bool :=
  match e with
  | HttpPost _ _ _ => true
  | _ => false
  end.

(** The stored secret of a user record: [data()?.api?.key]. *)
Definition stored_key (d : JS.value) : JS.value :=
  JS.opt_get (JS.opt_get d "api") "key".

(** ** Concrete worlds and requests *)

Module Sample.

Definition record (key : JS.value) : JS.value :=
  JS.Obj [ ("name", JS.Str "Ada"); ("api", JS.Obj [ ("key", key) ]) ].

Definition png : http_response :=
  {| status := 200; headers := [ ("content-type", "image/png") ];
     data := [ Byte.x89; Byte.x50; Byte.x4e; Byte.x47 ] |}.

Definition not_found : http_response :=
  {| status := 404; headers := [ ("content-type", "text/plain") ];
     data := [ Byte.x6e; Byte.x6f ] |}.

Definition broken : http_response :=
  {| status := 500; headers := [ ("content-type", "application/json") ];
     data := [ Byte.x7b; Byte.x7d ] |}.

(** Token [t1] belongs to user [u1], whose record holds the secret [k-1];
    [t2] belongs to [u2], who has no record; [t3] to [u3], whose record
    has no [api.key]; [t4] to [u4], whose [api.key] is the empty
    string.  Every downstream service answers [answer]. *)
Definition world_with (answer : string + http_response) : world :=
  {| verifyIdToken := fun t =>
       match t with
       | JS.Str "t1" => inr "u1"
       | JS.Str "t2" => inr "u2"
       | JS.Str "t3" => inr "u3"
       | JS.Str "t4" => inr "u4"
       | _ => inl "Decoding Firebase ID token failed."
       end;
     users := fun uid =>
       if uid =? "u1" then inr (Some (record (JS.Str "k-1")))
       else if uid =? "u3" then inr (Some (JS.Obj [ ("api", JS.Obj []) ]))
       else if uid =? "u4" then inr (Some (record (JS.Str "")))
       else inr None;
     downstream := fun _ _ _ => answer;
     form_boundary := "------0001";
     invalid_url_message := "Invalid URL";
     unsupported_value_message := "source.on is not a function" |}.

Definition ok : world := world_with (inr png).

Definition json_request (auth : option string) (svc : string) : request :=
  {| authorization := auth; service := svc;
     body := JS.Obj [ ("a", JS.Num "1") ]; file := None |}.

Definition picture : upload :=
  {| buffer := [ Byte.x01; Byte.x02 ]; originalname := "cat.png" |}.

Definition form_request (auth : option string) (svc : string) : request :=
  {| authorization := auth; service := svc;
     body := JS.Obj [ ("caption", JS.Str "x") ]; file := Some picture |}.

End Sample.

(** ** The cross-origin gate ([src/index.js], lines 16 to 26) *)

(** [process.env.ALLOWED_ORIGINS?.split(",") || []]: the pieces of the
    variable when it is set (an array is truthy, even when the variable
    is the empty string), the empty list when it is not. *)
Definition allowedOrigins (ALLOWED_ORIGINS : option string) : list string :=
  match ALLOWED_ORIGINS with
  | Some s => JS.split s ","
  | None => []
  end.

(** [list.includes(x)] on strings. *)
Definition includes (l : list string) (x : string) : bool :=
  existsb (String.eqb x) l.

(** The [origin] option handed to [cors]: [callback(null, true)] is
    [Returned true], [callback(new Error(...))] is [Thrown]. *)
Definition cors_origin (allowed : list string) (origin : option string)
  : outcome bool :=
  match origin with
  | None => Returned true
  | Some o =>
      if negb (JS.truthy (JS.Str o)) || includes allowed o
      then Returned true
      else Thrown (Error "Not allowed by CORS")
  end.

(** ** More worlds and requests *)

Module Cases.

(** The identity provider accepts [t1]; the document store is down. *)
Definition store_down : world :=
  {| verifyIdToken := verifyIdToken Sample.ok;
     users := fun _ => inl "14 UNAVAILABLE: No connection established";
     downstream := downstream Sample.ok;
     form_boundary := form_boundary Sample.ok;
     invalid_url_message := invalid_url_message Sample.ok;
     unsupported_value_message := unsupported_value_message Sample.ok |}.

(** A 204 answer without a content type. *)
Definition bare : http_response :=
  {| status := 204; headers := [ ("date", "Sun, 01 Nov 2026 00:00:00 GMT") ];
     data := [] |}.

(** A multipart request in which the field [tag] was sent twice. *)
Definition tagged_request : request :=
  {| authorization := Some "Bearer t1"; service := "images";
     body := JS.Obj [ ("caption", JS.Str "x");
                      ("tag", JS.Arr [ JS.Str "a"; JS.Str "b" ]) ];
     file := Some Sample.picture |}.

End Cases.

(** ** Strings: prefixes and [split] *)

Section Strings.

Lemma prefix_app (p t : string) : prefix p (p ++ t) = true.
Proof.
  induction p as [| c p IH]; simpl.
  - destruct t; reflexivity.
  - destruct (ascii_dec c c) as [_ | n]; [exact IH | now elim n].
Qed.

Lemma prefix_inv (p s : string) :
  prefix p s = true -> exists t, s = p ++ t.
Proof.
  revert s. induction p as [| c p IH]; intros s H.
  - exists s. reflexivity.
  - destruct s as [| d s]; simpl in H; [discriminate |].
    destruct (ascii_dec c d) as [-> | _]; [| discriminate].
    destruct (IH s H) as [t ->]. exists t. reflexivity.
Qed.

Lemma startsWith_pattern (h : string) :
  JS.startsWith h "Bearer " = true <-> bearer_pattern h.
Proof.
  unfold JS.startsWith, bearer_pattern. split.
  - apply prefix_inv.
  - intros [t ->]. apply prefix_app.
Qed.

Lemma append_assoc (a b c : string) : (a ++ b) ++ c = a ++ (b ++ c).
Proof. induction a as [| x a IH]; simpl; [| rewrite IH]; reflexivity. Qed.

Lemma append_nil_r (a : string) : a ++ "" = a.
Proof. induction a as [| x a IH]; simpl; [| rewrite IH]; reflexivity. Qed.

(** Passing over the rest of a match. *)
Lemma split_from_skip (sep u cur t : string) :
  JS.split_from sep (String.length u) cur (u ++ t) = JS.split_from sep 0 cur t.
Proof.
  induction u as [| c u IH]; simpl.
  - destruct t; reflexivity.
  - exact IH.
Qed.

(** A match at the head closes the current piece. *)
Lemma split_from_match (c : ascii) (sep' cur t : string) :
  JS.split_from (String c sep') 0 cur (String c sep' ++ t)
  = cur :: JS.split_from (String c sep') 0 "" t.
Proof.
  change (String c sep' ++ t) with (String c (sep' ++ t)).
  cbn [JS.split_from].
  change (String c (sep' ++ t)) with (String c sep' ++ t).
  rewrite prefix_app.
  replace (String.length (String c sep') - 1) with (String.length sep')
    by (simpl; lia).
  rewrite split_from_skip. reflexivity.
Qed.

(** The first piece is the current one, extended up to the next match. *)
Lemma split_from_head (sep cur s : string) :
  nth_error (JS.split_from sep 0 cur s) 0 = Some (cur ++ before sep s).
Proof.
  revert cur. induction s as [| c s IH]; intros cur.
  - simpl. rewrite append_nil_r. reflexivity.
  - cbn [JS.split_from before].
    destruct (prefix sep (String c s)).
    + simpl. rewrite append_nil_r. reflexivity.
    + rewrite IH, append_assoc. reflexivity.
Qed.

(** [h.split(sep)[1]] for a header that starts with the separator. *)
Lemma split_index_1 (c : ascii) (sep' rest : string) :
  JS.index (JS.split (String c sep' ++ rest) (String c sep')) 1
  = JS.Str (before (String c sep') rest).
Proof.
  unfold JS.index, JS.split. rewrite split_from_match.
  change (nth_error (?x :: ?l) 1) with (nth_error l 0).
  rewrite split_from_head. reflexivity.
Qed.

Lemma before_prefix (sep s : string) :
  exists rest, s = before sep s ++ rest.
Proof.
  induction s as [| c s [rest IH]].
  - exists "". reflexivity.
  - cbn [before]. destruct (prefix sep (String c s)).
    + exists (String c s). reflexivity.
    + exists rest. simpl. rewrite <- IH. reflexivity.
Qed.

Lemma before_no_occurrence (sep s : string) :
  ~ occurs sep s -> before sep s = s.
Proof.
  induction s as [| c s IH]; intros H; [reflexivity |].
  cbn [before]. destruct (prefix sep (String c s)) eqn:P.
  - exfalso. apply H. destruct (prefix_inv _ _ P) as [t E].
    exists "", t. exact E.
  - rewrite IH; [reflexivity |].
    intros (a & b & E). apply H. exists (String c a), b. rewrite E. reflexivity.
Qed.

Lemma occurs_tail (sep : string) (c : ascii) (s : string) :
  prefix sep (String c s) = false ->
  forall a b, String c s = a ++ sep ++ b ->
  exists a', a = String c a' /\ s = a' ++ sep ++ b.
Proof.
  intros P a b E. destruct a as [| x a'].
  - simpl in E. rewrite E, prefix_app in P. discriminate.
  - simpl in E. injection E as -> E. exists a'. split; [reflexivity | exact E].
Qed.

(** [before sep s] is what its name says: [s] itself when [sep] does not
    occur, else the text in front of the leftmost occurrence. *)
Lemma before_spec (sep s : string) :
  (~ occurs sep s /\ before sep s = s) \/
  (exists b, s = before sep s ++ sep ++ b /\
     forall a' b', s = a' ++ sep ++ b' ->
       String.length (before sep s) <= String.length a').
Proof.
  induction s as [| c s IH].
  - destruct (prefix sep "") eqn:P.
    + right. destruct (prefix_inv _ _ P) as [t E]. exists t. split.
      * exact E.
      * intros a' b' _. simpl. lia.
    + left. split; [| reflexivity].
      intros (a & b & E). destruct a; simpl in E.
      * rewrite E, prefix_app in P. discriminate.
      * discriminate.
  - cbn [before]. destruct (prefix sep (String c s)) eqn:P.
    + right. destruct (prefix_inv _ _ P) as [t E]. exists t. split.
      * exact E.
      * intros a' b' _. simpl. lia.
    + destruct IH as [[N E] | (b & E & Hmin)].
      * left. split; [| rewrite E; reflexivity].
        intros (a & b & E'). apply N.
        destruct (occurs_tail _ _ _ P _ _ E') as (a' & _ & E'').
        exists a', b. exact E''.
      * right. exists b. split.
        -- simpl. rewrite <- E. reflexivity.
        -- intros a' b' E'.
           destruct (occurs_tail _ _ _ P _ _ E') as (a0 & -> & E'').
           simpl. apply le_n_S. exact (Hmin _ _ E'').
Qed.

Lemma append_same_length (a a' x x' : string) :
  a ++ x = a' ++ x' -> String.length a = String.length a' -> a = a'.
Proof.
  revert a'. induction a as [| c a IH]; intros [| c' a'] E L;
    simpl in *; try discriminate; [reflexivity |].
  injection E as -> E. injection L as L. rewrite (IH _ E L). reflexivity.
Qed.

(** The text in front of the leftmost occurrence is [before]. *)
Lemma before_leftmost (sep a b : string) :
  (forall a' b', a ++ sep ++ b = a' ++ sep ++ b' ->
     String.length a <= String.length a') ->
  before sep (a ++ sep ++ b) = a.
Proof.
  intros Hmin. destruct (before_spec sep (a ++ sep ++ b)) as [[N _] | (b0 & E & Hmin0)].
  - exfalso. apply N. exists a, b. reflexivity.
  - symmetry. apply (append_same_length _ _ _ _ E).
    apply Nat.le_antisymm.
    + apply (Hmin _ _ E).
    + apply (Hmin0 a b). reflexivity.
Qed.

End Strings.

(** ** The pipeline, step by step *)

Section Pipeline.

Variable w : world.

(** *** The HTTP client *)

Lemma axios_post_url (u : string) (p : payload) (hs : header_list) :
  axios_post w (JS.Str u) p hs
  = ([HttpPost u p hs],
     match downstream w u p hs with
     | inl m => Thrown (Error m)
     | inr r =>
         if validateStatus (status r) then Returned r
         else Thrown (Error ("Request failed with status code "
                             ++ Z_to_string (status r)))
     end).
Proof.
  unfold axios_post, bind, emit, ret, throw.
  destruct (downstream w u p hs) as [m | r]; [reflexivity |].
  destruct (validateStatus (status r)); reflexivity.
Qed.

Lemma axios_post_builtin (n : string) (p : payload) (hs : header_list) :
  axios_post w (JS.Builtin n) p hs = ([], Thrown (Error (invalid_url_message w))).
Proof. reflexivity. Qed.

(** *** The identity resolver *)

Lemma getUserApiKey_closed (req : request) :
  JS.truthy (JS.opt_startsWith (authorization req) "Bearer ") = false ->
  getUserApiKey w req
  = ([], Thrown (Error "Missing or invalid Authorization header")).
Proof. intros H. unfold getUserApiKey. rewrite H. reflexivity. Qed.

(** Once the gate is passed, the resolver is two reads and two tests. *)
Lemma getUserApiKey_open (req : request) (h : string) :
  authorization req = Some h ->
  JS.startsWith h "Bearer " = true ->
  let idToken := JS.index (JS.split h "Bearer ") 1 in
  getUserApiKey w req =
    match verifyIdToken w idToken with
    | inl m => ([VerifyIdToken idToken], Thrown (Error m))
    | inr uid =>
        match users w uid with
        | inl m => ([VerifyIdToken idToken; FirestoreGet uid], Thrown (Error m))
        | inr None =>
            ([VerifyIdToken idToken; FirestoreGet uid],
             Thrown (Error "User not found in Firestore"))
        | inr (Some d) =>
            if JS.truthy (stored_key d)
            then ([VerifyIdToken idToken; FirestoreGet uid], Returned (stored_key d))
            else ([VerifyIdToken idToken; FirestoreGet uid],
                  Thrown (Error "User API key not found"))
        end
    end.
Proof.
  intros Ha Hp idToken. unfold getUserApiKey. rewrite Ha.
  cbn [JS.opt_startsWith JS.truthy]. rewrite Hp. cbn [negb].
  fold idToken. unfold bind, emit, ret, throw.
  destruct (verifyIdToken w idToken) as [m | uid]; [reflexivity |].
  destruct (users w uid) as [m | [d |]]; try reflexivity.
  fold (stored_key d). destruct (JS.truthy (stored_key d)); reflexivity.
Qed.

Lemma gate_cases (req : request) :
  JS.truthy (JS.opt_startsWith (authorization req) "Bearer ") = false \/
  exists h, authorization req = Some h /\ JS.startsWith h "Bearer " = true.
Proof.
  destruct (authorization req) as [h |]; [| left; reflexivity].
  cbn [JS.opt_startsWith JS.truthy].
  destruct (JS.startsWith h "Bearer ") eqn:E; [right | left; reflexivity].
  exists h. split; [reflexivity | exact E].
Qed.

(** The resolver never talks to a downstream service. *)
Lemma getUserApiKey_no_post (req : request) :
  forallb (fun e => negb (is_post e)) (trace (getUserApiKey w req)) = true.
Proof.
  destruct (gate_cases req) as [H | (h & Ha & Hp)].
  - rewrite (getUserApiKey_closed _ H). reflexivity.
  - rewrite (getUserApiKey_open _ _ Ha Hp).
    destruct (verifyIdToken w _) as [m | uid]; [reflexivity |].
    destruct (users w uid) as [m | [d |]]; try reflexivity.
    destruct (JS.truthy (stored_key d)); reflexivity.
Qed.

(** What a resolved identity tells about the request and the world. *)
Lemma getUserApiKey_returned (req : request) (t : list event) (key : JS.value) :
  getUserApiKey w req = (t, Returned key) ->
  exists h uid d,
    authorization req = Some h /\
    JS.startsWith h "Bearer " = true /\
    verifyIdToken w (JS.index (JS.split h "Bearer ") 1) = inr uid /\
    users w uid = inr (Some d) /\
    key = stored_key d /\
    JS.truthy key = true /\
    t = [VerifyIdToken (JS.index (JS.split h "Bearer ") 1); FirestoreGet uid].
Proof.
  intros H. destruct (gate_cases req) as [G | (h & Ha & Hp)].
  - rewrite (getUserApiKey_closed _ G) in H. discriminate.
  - rewrite (getUserApiKey_open _ _ Ha Hp) in H. cbv zeta in H.
    destruct (verifyIdToken w _) as [m | uid] eqn:V; [discriminate |].
    destruct (users w uid) as [m | [d |]] eqn:U; try discriminate.
    destruct (JS.truthy (stored_key d)) eqn:T; [| discriminate].
    injection H as <- <-. exists h, uid, d. repeat split; assumption.
Qed.

(** *** The form encoder *)

Lemma append_fields_trace (es : list (string * JS.value)) (form : list part) :
  trace (append_fields w form es) = [].
Proof.
  revert form. induction es as [| [k v] es' IH]; intros form; [reflexivity |].
  cbn [append_fields]. unfold form_append.
  destruct v; try reflexivity; unfold bind, ret; cbn iota.
  all: match goal with
       | |- context [append_fields _ ?f ?l] =>
           specialize (IH f); unfold trace in IH;
           destruct (append_fields _ f l) as [t [form' | e]]
       end.
  all: simpl in IH |- *; exact IH.
Qed.

(** When the loop ends without an error, it has added one part per
    entry, in the order of the entries. *)
Lemma append_fields_returned (es : list (string * JS.value))
    (form form' : list part) (t : list event) :
  append_fields w form es = (t, Returned form') ->
  exists parts, Forall2 field_part es parts /\ form' = (form ++ parts)%list.
Proof.
  revert form t. induction es as [| [k v] es' IH]; intros form t H.
  - injection H as _ <-. exists []. split; [constructor | now rewrite app_nil_r].
  - cbn [append_fields] in H. unfold form_append in H.
    destruct v; try discriminate H; unfold bind, ret in H; cbn iota in H.
    all: match type of H with
         | context [append_fields _ ?f ?l] =>
             destruct (append_fields _ f l) as [t' [form'' | e]] eqn:E;
               [| discriminate H]
         end.
    all: injection H as _ <-.
    all: destruct (IH _ _ E) as (parts & F & ->).
    all: eexists (_ :: parts); split;
         [ constructor; [constructor; reflexivity | exact F]
         | rewrite <- app_assoc; reflexivity ].
Qed.

(** With text and number values only, the loop cannot fail. *)
Lemma append_fields_text (es : list (string * JS.value)) (form : list part) :
  Forall (fun e => field_text (snd e) <> None) es ->
  exists parts,
    Forall2 field_part es parts /\
    append_fields w form es = ([], Returned (form ++ parts)%list).
Proof.
  intros F. revert form. induction F as [| [k v] es Hv F IH]; intros form.
  - exists []. split; [constructor | simpl; now rewrite app_nil_r].
  - cbn [append_fields]. unfold form_append.
    destruct v; simpl in Hv; try (now elim Hv).
    all: match goal with
         | |- context [Text ?s] =>
             destruct (IH (form ++ [ {| field := k; content := Text s;
                                        filename := None |} ])%list)
               as (parts & F2 & E)
         end.
    all: eexists (_ :: parts); split;
         [ constructor; [constructor; reflexivity | exact F2] |].
    all: unfold bind, ret; cbn iota; rewrite E; rewrite <- app_assoc; reflexivity.
Qed.

(** With a file, the form starts with the [image] part. *)
Lemma sendFormRequest_file (url : JS.value) (f : upload) (b key : JS.value) :
  sendFormRequest w url (Some f) b key =
    match JS.entries b with
    | None => ([], Thrown (Error "Cannot convert undefined or null to object"))
    | Some es =>
        form <- append_fields w [image_part f] es ;;
        axios_post w url (FormData form) (getHeaders w ++ [ ("x-api-key", key) ])%list
    end.
Proof.
  unfold sendFormRequest, form_append, bind, ret, throw, image_part. simpl.
  destruct (JS.entries b) as [es |]; [| reflexivity].
  destruct (append_fields w _ es) as [t [form | e]]; [| reflexivity].
  destruct (axios_post w url _ _). reflexivity.
Qed.

End Pipeline.

(** ** The route table *)

Lemma assoc_nonempty (l : list (string * string)) (k u : string) :
  Forall (fun e => snd e <> "") l -> JS.assoc k l = Some u -> u <> "".
Proof.
  induction 1 as [| [k' u'] l Hu _ IH]; simpl; [discriminate |].
  destruct (k' =? k); [| exact IH].
  intros E. injection E as <-. exact Hu.
Qed.

Lemma serviceMap_nonempty : Forall (fun e => snd e <> "") serviceMap.
Proof. unfold serviceMap. repeat constructor; discriminate. Qed.

(** The three ways [serviceMap[service]] can come out. *)
Lemma lookup_cases (s : string) :
  (exists u, JS.assoc s serviceMap = Some u /\
             JS.lookup serviceMap s = JS.Str u /\
             JS.truthy (JS.lookup serviceMap s) = true) \/
  (JS.assoc s serviceMap = None /\ JS.mem s JS.object_prototype = true /\
   JS.lookup serviceMap s = JS.Builtin s) \/
  (JS.assoc s serviceMap = None /\ JS.mem s JS.object_prototype = false /\
   JS.lookup serviceMap s = JS.Undefined).
Proof.
  unfold JS.lookup. destruct (JS.assoc s serviceMap) as [u |] eqn:A.
  - left. exists u. repeat split. simpl.
    destruct (String.eqb_spec u ""); [| reflexivity].
    now elim (assoc_nonempty _ _ _ serviceMap_nonempty A).
  - right. destruct (JS.mem s JS.object_prototype); [left | right]; repeat split.
Qed.

(** ** The handler, case by case *)

Section Handler.

Variable w : world.

(** An error of the resolver ends in the [catch] block. *)
Lemma handler_thrown (req : request) (t : list event) (e : error) :
  getUserApiKey w req = (t, Thrown e) ->
  handler w req = (t, Returned (failure (message e))).
Proof.
  intros H. unfold handler. rewrite H. simpl. rewrite app_nil_r. reflexivity.
Qed.

(** With the identity resolved, the handler is the route test followed
    by one of the two senders. *)
Lemma handler_resolved (req : request) (t : list event) (key : JS.value) :
  getUserApiKey w req = (t, Returned key) ->
  handler w req =
    let targetUrl := JS.lookup serviceMap (service req) in
    if JS.truthy targetUrl then
      match
        match file req with
        | Some f => sendFormRequest w targetUrl (Some f) (body req) key
        | None => sendJsonRequest w targetUrl (body req) key
        end
      with
      | (t', Returned r) =>
          ((t ++ t')%list, Returned (Send (header r "content-type") (data r)))
      | (t', Thrown e) => ((t ++ t')%list, Returned (failure (message e)))
      end
    else (t, Returned unknown_service).
Proof.
  intros H. unfold handler. rewrite H. cbv zeta. unfold bind at 1.
  destruct (JS.truthy (JS.lookup serviceMap (service req))); cbn [negb].
  - destruct (match file req with Some _ => _ | None => _ end) as [t' [r | e]];
      simpl; rewrite ?app_nil_r; reflexivity.
  - simpl. rewrite app_nil_r. reflexivity.
Qed.

Lemma handler_unknown (req : request) (t : list event) (key : JS.value) :
  getUserApiKey w req = (t, Returned key) ->
  JS.lookup serviceMap (service req) = JS.Undefined ->
  handler w req = (t, Returned unknown_service).
Proof.
  intros H L. rewrite (handler_resolved _ _ _ H). cbv zeta. rewrite L. reflexivity.
Qed.

(** JSON mode. *)
Lemma handler_json (req : request) (t : list event) (key : JS.value) (u : string) :
  getUserApiKey w req = (t, Returned key) ->
  JS.lookup serviceMap (service req) = JS.Str u ->
  file req = None ->
  handler w req =
    ((t ++ [HttpPost u (JsonData (body req)) (json_headers key)])%list,
     Returned (settle (downstream w u (JsonData (body req)) (json_headers key)))).
Proof.
  intros H L F. rewrite (handler_resolved _ _ _ H). cbv zeta.
  destruct (lookup_cases (service req)) as [(u' & _ & _ & T) | [(_ & _ & B) | (_ & _ & B)]];
    [| rewrite B in L; discriminate | rewrite B in L; discriminate].
  rewrite T, L, F. unfold sendJsonRequest. rewrite axios_post_url.
  fold (json_headers key). unfold settle.
  destruct (downstream w u _ _) as [m | r]; [reflexivity |].
  destruct (validateStatus (status r)); reflexivity.
Qed.

(** Form mode, once the form is built. *)
Lemma handler_form (req : request) (t : list event) (key : JS.value)
    (u : string) (f : upload) (es : list (string * JS.value))
    (form : list part) :
  getUserApiKey w req = (t, Returned key) ->
  JS.lookup serviceMap (service req) = JS.Str u ->
  file req = Some f ->
  JS.entries (body req) = Some es ->
  append_fields w [image_part f] es = ([], Returned form) ->
  handler w req =
    ((t ++ [HttpPost u (FormData form) (form_headers w key)])%list,
     Returned (settle (downstream w u (FormData form) (form_headers w key)))).
Proof.
  intros H L F E A. rewrite (handler_resolved _ _ _ H). cbv zeta.
  destruct (lookup_cases (service req)) as [(u' & _ & _ & T) | [(_ & _ & B) | (_ & _ & B)]];
    [| rewrite B in L; discriminate | rewrite B in L; discriminate].
  rewrite T, L, F, sendFormRequest_file, E, A. unfold bind at 1. rewrite axios_post_url.
  change (getHeaders w ++ [("x-api-key", key)])%list with (form_headers w key).
  unfold settle.
  destruct (downstream w u _ _) as [m | r]; [reflexivity |].
  destruct (validateStatus (status r)); reflexivity.
Qed.

(** Form mode, when the form cannot be built: nothing is sent. *)
Lemma handler_form_refused (req : request) (t : list event) (key : JS.value)
    (u : string) (f : upload) :
  getUserApiKey w req = (t, Returned key) ->
  JS.lookup serviceMap (service req) = JS.Str u ->
  file req = Some f ->
  (JS.entries (body req) = None \/
   exists es e, JS.entries (body req) = Some es /\
                append_fields w [image_part f] es = ([], Thrown e)) ->
  exists m, handler w req = (t, Returned (failure m)).
Proof.
  intros H L F R. rewrite (handler_resolved _ _ _ H). cbv zeta.
  destruct (lookup_cases (service req)) as [(u' & _ & _ & T) | [(_ & _ & B) | (_ & _ & B)]];
    [| rewrite B in L; discriminate | rewrite B in L; discriminate].
  rewrite T, L, F, sendFormRequest_file.
  destruct R as [E | (es & e & E & A)]; rewrite E.
  - eexists. simpl. rewrite app_nil_r. reflexivity.
  - rewrite A. eexists. simpl. rewrite app_nil_r. reflexivity.
Qed.

(** A name found on the prototype is not a URL: the client refuses it. *)
Lemma handler_builtin (req : request) (t : list event) (key : JS.value) (n : string) :
  getUserApiKey w req = (t, Returned key) ->
  JS.lookup serviceMap (service req) = JS.Builtin n ->
  exists m, handler w req = (t, Returned (failure m)).
Proof.
  intros H L. rewrite (handler_resolved _ _ _ H). cbv zeta. rewrite L.
  cbn [JS.truthy]. destruct (file req) as [f |].
  - rewrite sendFormRequest_file. destruct (JS.entries (body req)) as [es |].
    + pose proof (append_fields_trace w es [image_part f]) as Tr.
      unfold trace in Tr.
      destruct (append_fields w _ es) as [t' [form | e]]; simpl in Tr; subst t'.
      * eexists. simpl. rewrite app_nil_r. reflexivity.
      * eexists. simpl. rewrite app_nil_r. reflexivity.
    + eexists. simpl. rewrite app_nil_r. reflexivity.
  - eexists. simpl. rewrite app_nil_r. reflexivity.
Qed.

End Handler.

(** ** Outbound calls *)

Lemma validateStatus_spec (s : Z) :
  validateStatus s = true <-> (200 <= s < 300)%Z.
Proof.
  unfold validateStatus. rewrite andb_true_iff, Z.leb_le, Z.ltb_lt. reflexivity.
Qed.

Lemma no_post_not_in (t : list event) (u : string) (p : payload) (hs : header_list) :
  forallb (fun e => negb (is_post e)) t = true -> ~ In (HttpPost u p hs) t.
Proof.
  intros F I. rewrite forallb_forall in F. specialize (F _ I). discriminate.
Qed.

Lemma in_snoc_post (t : list event) (e : event) (u : string) (p : payload)
    (hs : header_list) :
  forallb (fun e => negb (is_post e)) t = true ->
  In (HttpPost u p hs) (t ++ [e]) -> e = HttpPost u p hs.
Proof.
  intros F I. apply in_app_or in I. destruct I as [I | [I | []]].
  - now elim (no_post_not_in _ _ _ _ F I).
  - exact I.
Qed.

Lemma assoc_none (k : string) (l : list (string * string)) :
  ~ In k (map fst l) -> JS.assoc k l = None.
Proof.
  induction l as [| [k' v] l IH]; simpl; intros N; [reflexivity |].
  destruct (String.eqb_spec k' k) as [-> | _].
  - elim N. now left.
  - apply IH. intros I. apply N. now right.
Qed.

Lemma mem_In (k : string) (l : list string) : JS.mem k l = true <-> In k l.
Proof.
  unfold JS.mem. rewrite existsb_exists. split.
  - intros (x & I & E). apply String.eqb_eq in E. now subst.
  - intros I. exists k. split; [exact I | apply String.eqb_refl].
Qed.

Section Dispatch.

Variable w : world.

(** Every outbound call of the handler comes from a request whose
    identity was resolved and whose service is an entry of the route
    table; it is the last external call, it is built in one of the two
    modes, and the reply is settled from its answer alone. *)
Lemma handler_post (req : request) (u : string) (p : payload) (hs : header_list) :
  In (HttpPost u p hs) (trace (handler w req)) ->
  exists t key,
    getUserApiKey w req = (t, Returned key) /\
    JS.lookup serviceMap (service req) = JS.Str u /\
    handler w req
    = ((t ++ [HttpPost u p hs])%list, Returned (settle (downstream w u p hs))) /\
    ((file req = None /\ p = JsonData (body req) /\ hs = json_headers key) \/
     (exists f es parts,
        file req = Some f /\ JS.entries (body req) = Some es /\
        Forall2 field_part es parts /\
        p = FormData (image_part f :: parts) /\ hs = form_headers w key)).
Proof.
  intros I. pose proof (getUserApiKey_no_post w req) as NP.
  destruct (getUserApiKey w req) as [t [key | e]] eqn:G; unfold trace in NP; simpl in NP.
  2:{ rewrite (handler_thrown _ _ _ _ G) in I. now elim (no_post_not_in _ _ _ _ NP I). }
  exists t, key. split; [reflexivity |].
  destruct (lookup_cases (service req))
    as [(u' & _ & L & _) | [(_ & _ & L) | (_ & _ & L)]].
  - destruct (file req) as [f |] eqn:F.
    + destruct (JS.entries (body req)) as [es |] eqn:E.
      * pose proof (append_fields_trace w es [image_part f]) as Tr. unfold trace in Tr.
        destruct (append_fields w [image_part f] es) as [t' [form | e]] eqn:A;
          simpl in Tr; subst t'.
        -- rewrite (handler_form _ _ _ _ _ _ _ _ G L F E A) in I |- *.
           apply (in_snoc_post _ _ _ _ _ NP) in I. injection I as -> <- <-.
           destruct (append_fields_returned _ _ _ _ _ A) as (parts & F2 & ->).
           repeat split; try assumption.
           right. exists f, es, parts. repeat split; assumption.
        -- destruct (handler_form_refused w req t key u' f G L F) as [m R].
           { right. exists es, e. split; [exact E | exact A]. }
           rewrite R in I. now elim (no_post_not_in _ _ _ _ NP I).
      * destruct (handler_form_refused w req t key u' f G L F) as [m R].
        { left. exact E. }
        rewrite R in I. now elim (no_post_not_in _ _ _ _ NP I).
    + rewrite (handler_json _ _ _ _ _ G L F) in I |- *.
      apply (in_snoc_post _ _ _ _ _ NP) in I. injection I as -> <- <-.
      repeat split; try assumption. left. repeat split.
  - destruct (handler_builtin w req t key _ G L) as [m R].
    rewrite R in I. now elim (no_post_not_in _ _ _ _ NP I).
  - rewrite (handler_unknown _ _ _ _ G L) in I.
    now elim (no_post_not_in _ _ _ _ NP I).
Qed.

(** The handler always answers: no error escapes the [catch] block. *)
Lemma handler_total (req : request) :
  exists r, result (handler w req) = Returned r.
Proof.
  unfold handler, try_catch, result.
  destruct (_ <- getUserApiKey w req ;; _) as [t [r | e]]; simpl; eauto.
Qed.

End Dispatch.

(** ** Properties of the gateway *)

(** C1, at the names an object literal inherits.  A request whose identity
    resolves and whose service name is not an entry of the route table but
    is a member of [Object.prototype] ([constructor], [toString],
    [__proto__], ...) is not answered 400 [Unknown service]:
    [serviceMap[service]] finds the inherited member, the test
    [!targetUrl] lets it through, the HTTP client refuses the target and
    the [catch] block answers 500 [Proxy failed].  No downstream call is
    made. *)
Theorem inherited_name_is_not_unknown_service
    (w : world) (req : request) (t : list event) (key : JS.value) :
  getUserApiKey w req = (t, Returned key) ->
  ~ In (service req) (map fst serviceMap) ->
  In (service req) JS.object_prototype ->
  exists m,
    handler w req = (t, Returned (failure m)) /\
    reply_status (failure m) = 500%Z /\
    failure m <> unknown_service.
Proof.
  intros G N I.
  assert (L : JS.lookup serviceMap (service req) = JS.Builtin (service req)).
  { unfold JS.lookup. rewrite (assoc_none _ _ N).
    apply mem_In in I. rewrite I. reflexivity. }
  destruct (handler_builtin w req t key _ G L) as [m R].
  exists m. repeat split; [exact R | discriminate].
Qed.

Lemma inherited_name_is_not_unknown_service_witness :
  exists m,
    handler Sample.ok (Sample.json_request (Some "Bearer t1") "constructor")
    = ([VerifyIdToken (JS.Str "t1"); FirestoreGet "u1"], Returned (failure m)) /\
    reply_status (failure m) = 500%Z /\
    failure m <> unknown_service.
Proof.
  apply (inherited_name_is_not_unknown_service Sample.ok
           (Sample.json_request (Some "Bearer t1") "constructor")
           [VerifyIdToken (JS.Str "t1"); FirestoreGet "u1"] (JS.Str "k-1")).
  - reflexivity.
  - simpl. intros H. repeat (destruct H as [H | H]; [discriminate H |]). exact H.
  - simpl. left. reflexivity.
Defined.

(** Every error raised in the pipeline is answered 500 [Proxy failed] with
    the message of the error as [details]; the only reply with another
    error status is the 400 of the route test. *)
Lemma failures_are_500 (w : world) (req : request) :
  exists r, result (handler w req) = Returned r /\
    ((exists ct bytes, r = Send ct bytes) \/ r = unknown_service \/
     (exists m, r = failure m)).
Proof.
  destruct (getUserApiKey w req) as [t [key | e]] eqn:G.
  - rewrite (handler_resolved _ _ _ _ G). cbv zeta.
    destruct (JS.truthy _).
    + destruct (match file req with Some _ => _ | None => _ end) as [t' [r | e]];
        eexists; (split; [reflexivity |]); eauto.
    + eexists. split; [reflexivity |]. auto.
  - rewrite (handler_thrown _ _ _ _ G). eexists. split; [reflexivity |]. eauto.
Qed.

(** C2, as amended.  For every request that reaches the dispatch step the
    reply is settled from the answer of the outbound call: a downstream
    response with a status in the 2xx range is forwarded, body and content
    type, as the gateway's own 200 reply; with any other status the HTTP
    client raises and the gateway answers 500 [Proxy failed] with the
    details [Request failed with status code N]; a transport exception is
    answered 500 with its message.  The handler itself never reads the
    status. *)
Theorem dispatch_settles_by_status
    (w : world) (req : request) (u : string) (p : payload) (hs : header_list) :
  In (HttpPost u p hs) (trace (handler w req)) ->
  (forall r, downstream w u p hs = inr r -> (200 <= status r < 300)%Z ->
     result (handler w req) = Returned (Send (header r "content-type") (data r)) /\
     reply_status (Send (header r "content-type") (data r)) = 200%Z) /\
  (forall r, downstream w u p hs = inr r -> ~ (200 <= status r < 300)%Z ->
     result (handler w req)
     = Returned (failure ("Request failed with status code "
                          ++ Z_to_string (status r)))) /\
  (forall m, downstream w u p hs = inl m ->
     result (handler w req) = Returned (failure m)).
Proof.
  intros I. destruct (handler_post w req u p hs I) as (t & key & _ & _ & H & _).
  rewrite H. unfold result, settle. cbn [snd]. split; [| split].
  - intros r E S. rewrite E. apply validateStatus_spec in S. rewrite S.
    split; reflexivity.
  - intros r E N. rewrite E.
    destruct (validateStatus (status r)) eqn:V; [| reflexivity].
    apply validateStatus_spec in V. contradiction.
  - intros m E. rewrite E. reflexivity.
Qed.

Lemma dispatch_settles_by_status_witness :
  (forall r, downstream Sample.ok "https://endless-vectors-gxda.onrender.com/convert"
               (JsonData (JS.Obj [ ("a", JS.Num "1") ]))
               (json_headers (JS.Str "k-1")) = inr r ->
             (200 <= status r < 300)%Z ->
     result (handler Sample.ok (Sample.json_request (Some "Bearer t1") "vectors"))
     = Returned (Send (header r "content-type") (data r)) /\
     reply_status (Send (header r "content-type") (data r)) = 200%Z) /\
  (forall r, downstream Sample.ok "https://endless-vectors-gxda.onrender.com/convert"
               (JsonData (JS.Obj [ ("a", JS.Num "1") ]))
               (json_headers (JS.Str "k-1")) = inr r ->
             ~ (200 <= status r < 300)%Z ->
     result (handler Sample.ok (Sample.json_request (Some "Bearer t1") "vectors"))
     = Returned (failure ("Request failed with status code "
                          ++ Z_to_string (status r)))) /\
  (forall m, downstream Sample.ok "https://endless-vectors-gxda.onrender.com/convert"
               (JsonData (JS.Obj [ ("a", JS.Num "1") ]))
               (json_headers (JS.Str "k-1")) = inl m ->
     result (handler Sample.ok (Sample.json_request (Some "Bearer t1") "vectors"))
     = Returned (failure m)).
Proof.
  apply (dispatch_settles_by_status Sample.ok
           (Sample.json_request (Some "Bearer t1") "vectors")).
  simpl. right. right. left. reflexivity.
Defined.

(** C2 as stated fails: a downstream 404 is not forwarded.  The contact
    service answers 404 with a text body; the gateway replies 500
    [Proxy failed], not the downstream body. *)
Lemma downstream_404_is_not_forwarded :
  let w := Sample.world_with (inr Sample.not_found) in
  let req := Sample.json_request (Some "Bearer t1") "contact" in
  handler w req
  = ([VerifyIdToken (JS.Str "t1"); FirestoreGet "u1";
      HttpPost "https://endless-bureaucracy.onrender.com/contact"
        (JsonData (body req)) (json_headers (JS.Str "k-1"))],
     Returned (failure "Request failed with status code 404")) /\
  result (handler w req)
  <> Returned (Send (header Sample.not_found "content-type") (data Sample.not_found)).
Proof. split; [reflexivity | discriminate]. Qed.

(** C3.  For every authenticated, routed request the translation mode is
    selected by the presence of a file alone.  Without a file the one
    outbound call is in JSON mode: the body of the request, unchanged,
    under the headers [Content-Type: application/json] and
    [x-api-key: <secret>].  With a file every outbound call is a multipart
    form that starts with the file, under the encoder's headers and
    [x-api-key: <secret>], and it is sent whenever the body fields are
    text. *)
Theorem mode_follows_file
    (w : world) (req : request) (t : list event) (key : JS.value) (u : string) :
  getUserApiKey w req = (t, Returned key) ->
  JS.lookup serviceMap (service req) = JS.Str u ->
  (file req = None ->
     trace (handler w req)
     = (t ++ [HttpPost u (JsonData (body req))
                [ ("Content-Type", JS.Str "application/json");
                  ("x-api-key", key) ]])%list) /\
  (forall f, file req = Some f ->
     forall u' p hs, In (HttpPost u' p hs) (trace (handler w req)) ->
       exists parts,
         p = FormData (image_part f :: parts) /\ hs = form_headers w key) /\
  (forall f es, file req = Some f ->
     JS.entries (body req) = Some es ->
     Forall (fun e => field_text (snd e) <> None) es ->
     exists parts,
       trace (handler w req)
       = (t ++ [HttpPost u (FormData (image_part f :: parts))
                  (form_headers w key)])%list).
Proof.
  intros G L. split; [| split].
  - intros F. rewrite (handler_json _ _ _ _ _ G L F). reflexivity.
  - intros f F u' p hs I.
    destruct (handler_post w req u' p hs I) as (t' & key' & G' & _ & _ & M).
    rewrite G in G'. injection G' as _ <-.
    destruct M as [(F' & _) | (f' & es & parts & F' & _ & _ & -> & ->)].
    + rewrite F in F'. discriminate.
    + rewrite F in F'. injection F' as <-. exists parts. split; reflexivity.
  - intros f es F E T.
    destruct (append_fields_text w es [image_part f] T) as (parts & _ & A).
    exists parts. rewrite (handler_form _ _ _ _ _ _ _ _ G L F E A). reflexivity.
Qed.

Lemma mode_follows_file_witness :
  trace (handler Sample.ok (Sample.json_request (Some "Bearer t1") "images"))
  = [ VerifyIdToken (JS.Str "t1"); FirestoreGet "u1";
      HttpPost "https://endless-images-second-life.onrender.com/convert"
        (JsonData (JS.Obj [ ("a", JS.Num "1") ]))
        [ ("Content-Type", JS.Str "application/json");
          ("x-api-key", JS.Str "k-1") ] ] /\
  exists parts,
    trace (handler Sample.ok (Sample.form_request (Some "Bearer t1") "images"))
    = [ VerifyIdToken (JS.Str "t1"); FirestoreGet "u1";
        HttpPost "https://endless-images-second-life.onrender.com/convert"
          (FormData (image_part Sample.picture :: parts))
          (form_headers Sample.ok (JS.Str "k-1")) ].
Proof.
  split.
  - apply (mode_follows_file Sample.ok
             (Sample.json_request (Some "Bearer t1") "images")
             [VerifyIdToken (JS.Str "t1"); FirestoreGet "u1"] (JS.Str "k-1"));
      reflexivity.
  - apply (mode_follows_file Sample.ok
             (Sample.form_request (Some "Bearer t1") "images")
             [VerifyIdToken (JS.Str "t1"); FirestoreGet "u1"] (JS.Str "k-1")
             "https://endless-images-second-life.onrender.com/convert"
             eq_refl eq_refl) with (f := Sample.picture)
             (es := [ ("caption", JS.Str "x") ]).
    + reflexivity.
    + reflexivity.
    + repeat constructor; discriminate.
Defined.

(** C4.  For every form-mode request (a file is attached) the outbound
    multipart body is the part [image], with the bytes and the original
    name of the file, followed by one part per entry of the body's field
    mapping, in the iteration order of the mapping, each carrying the
    value as a string; the headers are the multipart header of the encoder
    and [x-api-key: <secret>].  This holds of every outbound call of such
    a request, and the call is made whenever the field values are text or
    numbers. *)
Theorem form_mode_parts
    (w : world) (req : request) (t : list event) (key : JS.value) (u : string)
    (f : upload) :
  getUserApiKey w req = (t, Returned key) ->
  JS.lookup serviceMap (service req) = JS.Str u ->
  file req = Some f ->
  (forall u' p hs, In (HttpPost u' p hs) (trace (handler w req)) ->
     exists es parts,
       JS.entries (body req) = Some es /\
       Forall2 field_part es parts /\
       p = FormData ({| field := "image"; content := Bytes (buffer f);
                        filename := Some (originalname f) |} :: parts) /\
       hs = [ ("content-type",
               JS.Str ("multipart/form-data; boundary=" ++ form_boundary w));
              ("x-api-key", key) ]) /\
  (forall es, JS.entries (body req) = Some es ->
     Forall (fun e => field_text (snd e) <> None) es ->
     exists parts,
       Forall2 field_part es parts /\
       trace (handler w req)
       = (t ++ [HttpPost u
                  (FormData ({| field := "image"; content := Bytes (buffer f);
                                filename := Some (originalname f) |} :: parts))
                  [ ("content-type",
                     JS.Str ("multipart/form-data; boundary=" ++ form_boundary w));
                    ("x-api-key", key) ]])%list).
Proof.
  intros G L F. split.
  - intros u' p hs I.
    destruct (handler_post w req u' p hs I) as (t' & key' & G' & _ & _ & M).
    rewrite G in G'. injection G' as _ <-.
    destruct M as [(F' & _) | (f' & es & parts & F' & E & F2 & -> & ->)].
    + rewrite F in F'. discriminate.
    + rewrite F in F'. injection F' as <-.
      exists es, parts. repeat split; assumption.
  - intros es E T.
    destruct (append_fields_text w es [image_part f] T) as (parts & F2 & A).
    exists parts. split; [exact F2 |].
    rewrite (handler_form _ _ _ _ _ _ _ _ G L F E A). reflexivity.
Qed.

Lemma form_mode_parts_witness :
  exists parts,
    Forall2 field_part [ ("caption", JS.Str "x") ] parts /\
    trace (handler Sample.ok (Sample.form_request (Some "Bearer t1") "profilepicture"))
    = [ VerifyIdToken (JS.Str "t1"); FirestoreGet "u1";
        HttpPost "https://endless-bureaucracy.onrender.com/upload-profile-pic"
          (FormData
             ({| field := "image"; content := Bytes [ Byte.x01; Byte.x02 ];
                 filename := Some "cat.png" |} :: parts))
          [ ("content-type", JS.Str "multipart/form-data; boundary=------0001");
            ("x-api-key", JS.Str "k-1") ] ].
Proof.
  apply (proj2 (form_mode_parts Sample.ok
                  (Sample.form_request (Some "Bearer t1") "profilepicture")
                  [VerifyIdToken (JS.Str "t1"); FirestoreGet "u1"] (JS.Str "k-1")
                  "https://endless-bureaucracy.onrender.com/upload-profile-pic"
                  Sample.picture eq_refl eq_refl eq_refl)).
  - reflexivity.
  - repeat constructor; discriminate.
Defined.

(** The run of the specification's example: a file and the body fields
    [{"caption":"x"}]. *)
Example form_mode_caption :
  trace (handler Sample.ok (Sample.form_request (Some "Bearer t1") "profilepicture"))
  = [ VerifyIdToken (JS.Str "t1"); FirestoreGet "u1";
      HttpPost "https://endless-bureaucracy.onrender.com/upload-profile-pic"
        (FormData
           [ {| field := "image"; content := Bytes [ Byte.x01; Byte.x02 ];
                filename := Some "cat.png" |};
             {| field := "caption"; content := Text "x"; filename := None |} ])
        [ ("content-type", JS.Str "multipart/form-data; boundary=------0001");
          ("x-api-key", JS.Str "k-1") ] ].
Proof. reflexivity. Qed.

(** C5.  For every request with a valid token, an existing user record and
    a present [api.key], the [x-api-key] header of the downstream call is
    the stored value itself, and in JSON mode the payload of the call is
    the inbound body itself.  The call is made, with exactly these
    headers, when the service is routed and the stored value passes the
    resolver's test [!apiKey]. *)
Theorem secret_reaches_downstream_unchanged
    (w : world) (req : request) (h uid : string) (d : JS.value) :
  authorization req = Some h ->
  JS.startsWith h "Bearer " = true ->
  verifyIdToken w (JS.index (JS.split h "Bearer ") 1) = inr uid ->
  users w uid = inr (Some d) ->
  stored_key d <> JS.Undefined ->
  (forall u p hs, In (HttpPost u p hs) (trace (handler w req)) ->
     JS.assoc "x-api-key" hs = Some (stored_key d) /\
     (file req = None -> p = JsonData (body req))) /\
  (forall u, JS.truthy (stored_key d) = true ->
     JS.lookup serviceMap (service req) = JS.Str u ->
     file req = None ->
     trace (handler w req)
     = [ VerifyIdToken (JS.index (JS.split h "Bearer ") 1); FirestoreGet uid;
         HttpPost u (JsonData (body req))
           [ ("Content-Type", JS.Str "application/json");
             ("x-api-key", stored_key d) ] ]).
Proof.
  intros Ha Hp V U _.
  pose proof (getUserApiKey_open w req h Ha Hp) as G. cbv zeta in G.
  rewrite V, U in G. split.
  - intros u p hs I.
    destruct (handler_post w req u p hs I) as (t & key & G' & _ & _ & M).
    rewrite G in G'. destruct (JS.truthy (stored_key d)); [| discriminate].
    injection G' as _ <-.
    destruct M as [(F & -> & ->) | (f & es & parts & F & _ & _ & -> & ->)].
    + split; [reflexivity | intros _; reflexivity].
    + split; [reflexivity | intros F'; rewrite F in F'; discriminate].
  - intros u T L F. rewrite T in G.
    rewrite (handler_json _ _ _ _ _ G L F). reflexivity.
Qed.

Lemma secret_reaches_downstream_unchanged_witness :
  trace (handler Sample.ok (Sample.json_request (Some "Bearer t1") "codeformat"))
  = [ VerifyIdToken (JS.Str "t1"); FirestoreGet "u1";
      HttpPost "https://endless-code-tools-api.onrender.com/format"
        (JsonData (JS.Obj [ ("a", JS.Num "1") ]))
        [ ("Content-Type", JS.Str "application/json");
          ("x-api-key", JS.Str "k-1") ] ].
Proof.
  assert (P : stored_key (Sample.record (JS.Str "k-1")) <> JS.Undefined)
    by discriminate.
  apply (proj2 (secret_reaches_downstream_unchanged Sample.ok
                  (Sample.json_request (Some "Bearer t1") "codeformat")
                  "Bearer t1" "u1" (Sample.record (JS.Str "k-1"))
                  eq_refl eq_refl eq_refl eq_refl P)); reflexivity.
Defined.

(** A stored key that is the empty string is treated as no key at all. *)
Example empty_key_is_not_found :
  handler Sample.ok (Sample.json_request (Some "Bearer t4") "vectors")
  = ([VerifyIdToken (JS.Str "t4"); FirestoreGet "u4"],
     Returned (failure "User API key not found")).
Proof. reflexivity. Qed.

(** C6.  When the [Authorization] header is absent or does not match the
    pattern [Bearer <token>], the identity resolver fails with the error
    [Missing or invalid Authorization header], which names the header
    problem; the reply is 500 [Proxy failed] with that message, and
    neither the identity provider nor the document store is called. *)
Theorem bad_header_fails_without_calls (w : world) (req : request) :
  (authorization req = None \/
   exists h, authorization req = Some h /\ ~ bearer_pattern h) ->
  getUserApiKey w req
  = ([], Thrown (Error "Missing or invalid Authorization header")) /\
  mentions "Missing or invalid Authorization header"
           "missing or invalid authorization header" = true /\
  handler w req
  = ([], Returned (Json 500 (JS.Obj
            [ ("error", JS.Str "Proxy failed");
              ("details", JS.Str "Missing or invalid Authorization header") ]))).
Proof.
  intros H.
  assert (G : getUserApiKey w req
              = ([], Thrown (Error "Missing or invalid Authorization header"))).
  { apply getUserApiKey_closed. destruct H as [-> | (h & -> & N)]; [reflexivity |].
    cbn [JS.opt_startsWith JS.truthy].
    destruct (JS.startsWith h "Bearer ") eqn:S; [| reflexivity].
    elim N. apply startsWith_pattern. exact S. }
  split; [exact G |]. split; [reflexivity |].
  rewrite (handler_thrown _ _ _ _ G). reflexivity.
Qed.

Lemma bad_header_fails_without_calls_witness :
  getUserApiKey Sample.ok (Sample.json_request (Some "Basic dXNlcg==") "vectors")
  = ([], Thrown (Error "Missing or invalid Authorization header")) /\
  mentions "Missing or invalid Authorization header"
           "missing or invalid authorization header" = true /\
  handler Sample.ok (Sample.json_request (Some "Basic dXNlcg==") "vectors")
  = ([], Returned (Json 500 (JS.Obj
            [ ("error", JS.Str "Proxy failed");
              ("details", JS.Str "Missing or invalid Authorization header") ]))).
Proof.
  apply bad_header_fails_without_calls. right.
  exists "Basic dXNlcg==". split; [reflexivity |].
  intros [token E]. discriminate E.
Defined.

(** C7, as amended.  For every request whose identity resolves and whose
    service name is neither an entry of the route table nor a name every
    object inherits, the reply is exactly [{ "error": "Unknown service" }]
    with status 400, and no downstream call is made. *)
Theorem unknown_service_after_identity
    (w : world) (req : request) (t : list event) (key : JS.value) :
  getUserApiKey w req = (t, Returned key) ->
  ~ In (service req) (map fst serviceMap) ->
  ~ In (service req) JS.object_prototype ->
  handler w req
  = (t, Returned (Json 400 (JS.Obj [ ("error", JS.Str "Unknown service") ]))) /\
  forall u p hs, ~ In (HttpPost u p hs) (trace (handler w req)).
Proof.
  intros G N P.
  assert (L : JS.lookup serviceMap (service req) = JS.Undefined).
  { unfold JS.lookup. rewrite (assoc_none _ _ N).
    destruct (JS.mem (service req) JS.object_prototype) eqn:M; [| reflexivity].
    elim P. apply mem_In. exact M. }
  rewrite (handler_unknown _ _ _ _ G L). split; [reflexivity |].
  intros u p hs. apply no_post_not_in.
  pose proof (getUserApiKey_no_post w req) as NP. rewrite G in NP. exact NP.
Qed.

Lemma unknown_service_after_identity_witness :
  handler Sample.ok (Sample.json_request (Some "Bearer t1") "nope")
  = ([VerifyIdToken (JS.Str "t1"); FirestoreGet "u1"],
     Returned (Json 400 (JS.Obj [ ("error", JS.Str "Unknown service") ]))) /\
  forall u p hs,
    ~ In (HttpPost u p hs)
         (trace (handler Sample.ok (Sample.json_request (Some "Bearer t1") "nope"))).
Proof.
  apply (unknown_service_after_identity Sample.ok
           (Sample.json_request (Some "Bearer t1") "nope")
           [VerifyIdToken (JS.Str "t1"); FirestoreGet "u1"] (JS.Str "k-1")).
  - reflexivity.
  - simpl. intros H. repeat (destruct H as [H | H]; [discriminate H |]). exact H.
  - simpl. intros H. repeat (destruct H as [H | H]; [discriminate H |]). exact H.
Defined.

(** C7 as stated fails: the identity is resolved before the route is
    tested, so an unknown service name sent without credentials is
    answered 500 [Proxy failed], not 400 [Unknown service]. *)
Lemma unknown_service_without_header_is_500 :
  let req := Sample.json_request None "nope" in
  ~ In (service req) (map fst serviceMap) /\
  handler Sample.ok req
  = ([], Returned (failure "Missing or invalid Authorization header")) /\
  result (handler Sample.ok req)
  <> Returned (Json 400 (JS.Obj [ ("error", JS.Str "Unknown service") ])).
Proof.
  split; [| split; [reflexivity | discriminate]].
  simpl. intros H. repeat (destruct H as [H | H]; [discriminate H |]). exact H.
Qed.

(** C8, as amended.  Round trip: for any downstream response with a status
    in the 2xx range, whatever its bytes and its content-type string, the
    reply of the gateway carries the same bytes and the same
    [Content-Type] value, and nothing else is done to them. *)
Theorem relay_is_verbatim_on_2xx
    (w : world) (req : request) (u : string) (p : payload) (hs : header_list)
    (r : http_response) (ct : string) :
  In (HttpPost u p hs) (trace (handler w req)) ->
  downstream w u p hs = inr r ->
  (200 <= status r < 300)%Z ->
  JS.assoc "content-type" (headers r) = Some ct ->
  result (handler w req) = Returned (Send (JS.Str ct) (data r)).
Proof.
  intros I D S C. destruct (handler_post w req u p hs I) as (t & key & _ & _ & H & _).
  rewrite H, D. unfold result, settle, header. cbn [snd].
  apply validateStatus_spec in S. rewrite S, C. reflexivity.
Qed.

Lemma relay_is_verbatim_on_2xx_witness :
  result (handler Sample.ok (Sample.form_request (Some "Bearer t1") "images"))
  = Returned (Send (JS.Str "image/png") [ Byte.x89; Byte.x50; Byte.x4e; Byte.x47 ]).
Proof.
  apply (relay_is_verbatim_on_2xx Sample.ok
           (Sample.form_request (Some "Bearer t1") "images")
           "https://endless-images-second-life.onrender.com/convert"
           (FormData [ image_part Sample.picture;
                       {| field := "caption"; content := Text "x"; filename := None |} ])
           (form_headers Sample.ok (JS.Str "k-1"))
           Sample.png "image/png").
  - simpl. right. right. left. reflexivity.
  - reflexivity.
  - simpl. lia.
  - reflexivity.
Defined.

(** C8 as stated fails: the bytes and the content type of a downstream
    response with status 500 do not reach the caller. *)
Lemma downstream_500_is_not_relayed :
  let w := Sample.world_with (inr Sample.broken) in
  let req := Sample.json_request (Some "Bearer t1") "codedetect" in
  In (HttpPost "https://endless-code-tools-api.onrender.com/detect"
        (JsonData (body req)) (json_headers (JS.Str "k-1")))
     (trace (handler w req)) /\
  result (handler w req)
  = Returned (failure "Request failed with status code 500") /\
  result (handler w req)
  <> Returned (Send (JS.Str "application/json") (data Sample.broken)).
Proof.
  split; [| split; [reflexivity | discriminate]].
  simpl. right. right. left. reflexivity.
Qed.

(** C9.  For every request whose bearer token verifies: when no user
    record exists for the verified subject the pipeline fails with the
    error [User not found in Firestore]; when the record exists but the
    nested field [api.key] is absent it fails with [User API key not
    found].  In both cases the external calls are the token verification
    and the document read, and no downstream call. *)
Theorem missing_record_or_key_fails_before_dispatch
    (w : world) (req : request) (h uid : string) :
  authorization req = Some h ->
  JS.startsWith h "Bearer " = true ->
  verifyIdToken w (JS.index (JS.split h "Bearer ") 1) = inr uid ->
  (users w uid = inr None ->
     handler w req
     = ([ VerifyIdToken (JS.index (JS.split h "Bearer ") 1); FirestoreGet uid ],
        Returned (failure "User not found in Firestore"))) /\
  (forall d, users w uid = inr (Some d) -> stored_key d = JS.Undefined ->
     handler w req
     = ([ VerifyIdToken (JS.index (JS.split h "Bearer ") 1); FirestoreGet uid ],
        Returned (failure "User API key not found"))) /\
  mentions "User not found in Firestore" "user not found" = true /\
  mentions "User API key not found" "api key not found" = true.
Proof.
  intros Ha Hp V.
  pose proof (getUserApiKey_open w req h Ha Hp) as G. cbv zeta in G.
  rewrite V in G. repeat split.
  - intros U. rewrite U in G. rewrite (handler_thrown _ _ _ _ G). reflexivity.
  - intros d U K. rewrite U, K in G. cbn [JS.truthy] in G.
    rewrite (handler_thrown _ _ _ _ G). reflexivity.
Qed.

Lemma missing_record_or_key_fails_before_dispatch_witness :
  handler Sample.ok (Sample.json_request (Some "Bearer t2") "vectors")
  = ([ VerifyIdToken (JS.Str "t2"); FirestoreGet "u2" ],
     Returned (failure "User not found in Firestore")) /\
  handler Sample.ok (Sample.json_request (Some "Bearer t3") "vectors")
  = ([ VerifyIdToken (JS.Str "t3"); FirestoreGet "u3" ],
     Returned (failure "User API key not found")).
Proof.
  split.
  - apply (missing_record_or_key_fails_before_dispatch Sample.ok
             (Sample.json_request (Some "Bearer t2") "vectors") "Bearer t2" "u2");
      reflexivity.
  - apply (proj1 (proj2 (missing_record_or_key_fails_before_dispatch Sample.ok
             (Sample.json_request (Some "Bearer t3") "vectors") "Bearer t3" "u3"
             eq_refl eq_refl eq_refl)) (JS.Obj [ ("api", JS.Obj []) ]));
      reflexivity.
Defined.

(** A key that is stored but falsy (the empty string, [0], [false],
    [null]) fails the same test as an absent one. *)
Lemma falsy_key_is_not_found
    (w : world) (req : request) (h uid : string) (d : JS.value) :
  authorization req = Some h ->
  JS.startsWith h "Bearer " = true ->
  verifyIdToken w (JS.index (JS.split h "Bearer ") 1) = inr uid ->
  users w uid = inr (Some d) ->
  JS.truthy (stored_key d) = false ->
  handler w req
  = ([ VerifyIdToken (JS.index (JS.split h "Bearer ") 1); FirestoreGet uid ],
     Returned (failure "User API key not found")).
Proof.
  intros Ha Hp V U K.
  pose proof (getUserApiKey_open w req h Ha Hp) as G. cbv zeta in G.
  rewrite V, U, K in G. rewrite (handler_thrown _ _ _ _ G). reflexivity.
Qed.

(** C10, as amended.  The gate tests the prefix [Bearer ] and nothing
    else: a header that is exactly [Bearer ], or that has any text after
    the prefix, passes it.  What is then sent to the identity provider is
    the text after the prefix up to the next occurrence of [Bearer ]: the
    whole remainder, possibly empty, when [Bearer ] does not occur again,
    and otherwise the text in front of its leftmost occurrence. *)
Theorem bearer_gate_and_token (w : world) (req : request) (rest : string) :
  authorization req = Some ("Bearer " ++ rest) ->
  JS.truthy (JS.opt_startsWith (authorization req) "Bearer ") = true /\
  (exists later,
     trace (getUserApiKey w req)
     = VerifyIdToken (JS.Str (before "Bearer " rest)) :: later) /\
  (~ occurs "Bearer " rest -> before "Bearer " rest = rest) /\
  (forall a b, rest = a ++ "Bearer " ++ b ->
     (forall a' b', rest = a' ++ "Bearer " ++ b' ->
        String.length a <= String.length a') ->
     before "Bearer " rest = a).
Proof.
  intros Ha.
  assert (Hp : JS.startsWith ("Bearer " ++ rest) "Bearer " = true)
    by apply prefix_app.
  split; [| split; [| split]].
  - rewrite Ha. cbn [JS.opt_startsWith JS.truthy]. exact Hp.
  - rewrite (getUserApiKey_open w req _ Ha Hp). cbv zeta.
    rewrite (split_index_1 "B" "earer " rest).
    destruct (verifyIdToken w _) as [m | uid]; [eexists; reflexivity |].
    destruct (users w uid) as [m | [d |]]; try (eexists; reflexivity).
    destruct (JS.truthy (stored_key d)); eexists; reflexivity.
  - apply before_no_occurrence.
  - intros a b -> Hmin. apply before_leftmost. exact Hmin.
Qed.

Lemma bearer_gate_and_token_witness :
  JS.truthy (JS.opt_startsWith (Some "Bearer ") "Bearer ") = true /\
  (exists later,
     trace (getUserApiKey Sample.ok (Sample.json_request (Some "Bearer ") "vectors"))
     = VerifyIdToken (JS.Str "") :: later).
Proof.
  destruct (bearer_gate_and_token Sample.ok
              (Sample.json_request (Some "Bearer ") "vectors") "" eq_refl)
    as (G & T & _).
  split; [exact G | exact T].
Defined.

(** C10 as stated fails: when [Bearer ] occurs a second time in the
    header, the token sent for verification is not the remainder after
    the first occurrence. *)
Lemma token_stops_at_second_bearer :
  let req := Sample.json_request (Some ("Bearer " ++ "aBearer b")) "vectors" in
  trace (getUserApiKey Sample.ok req) = [ VerifyIdToken (JS.Str "a") ] /\
  VerifyIdToken (JS.Str "a") <> VerifyIdToken (JS.Str "aBearer b").
Proof. split; [reflexivity | discriminate]. Qed.

(** ** The earlier variant *)

(** The handler of [src/unnamed/part_000] has no JSON mode: a request
    without a file is sent as a multipart form of its body fields. *)
Example part000_always_form :
  trace (Part000.handler Sample.ok (Sample.json_request (Some "Bearer t1") "images"))
  = [ VerifyIdToken (JS.Str "t1"); FirestoreGet "u1";
      HttpPost "https://endless-images-second-life.onrender.com/convert"
        (FormData [ {| field := "a"; content := Text "1"; filename := None |} ])
        (form_headers Sample.ok (JS.Str "k-1")) ].
Proof. reflexivity. Qed.

(** ** More on [split]: joining the pieces, pieces of a joined list *)

Lemma split_from_nonempty (sep : string) (skip : nat) (cur s : string) :
  JS.split_from sep skip cur s <> [].
Proof.
  revert skip cur. induction s as [| c s IH]; intros skip cur; cbn [JS.split_from].
  - discriminate.
  - destruct skip; [| apply IH].
    destruct (prefix sep (String c s)); [discriminate | apply IH].
Qed.

Lemma concat_cons (sep x : string) (l : list string) :
  l <> [] -> String.concat sep (x :: l) = x ++ sep ++ String.concat sep l.
Proof. destruct l; [now intros H; elim H | reflexivity]. Qed.

Lemma length_app (a b : string) :
  String.length (a ++ b) = String.length a + String.length b.
Proof. induction a as [| c a IH]; simpl; [| rewrite IH]; reflexivity. Qed.

(** One step of the scan where the separator does not match. *)
Lemma split_from_step (sep : string) (c : ascii) (cur s : string) :
  prefix sep (String c s) = false ->
  JS.split_from sep 0 cur (String c s)
  = JS.split_from sep 0 (cur ++ String c "") s.
Proof. intros P. cbn [JS.split_from]. rewrite P. reflexivity. Qed.

Lemma concat_split_from (c : ascii) (sep' : string) (n : nat) :
  forall s cur, String.length s <= n ->
    String.concat (String c sep') (JS.split_from (String c sep') 0 cur s)
    = cur ++ s.
Proof.
  induction n as [| n IH]; intros s cur L.
  - destruct s; [| simpl in L; lia]. simpl. now rewrite append_nil_r.
  - destruct s as [| a s]; [simpl; now rewrite append_nil_r |].
    destruct (prefix (String c sep') (String a s)) eqn:P.
    + destruct (prefix_inv _ _ P) as [t E]. rewrite E, split_from_match.
      rewrite concat_cons by apply split_from_nonempty.
      rewrite IH; [reflexivity |].
      assert (String.length (String a s) = String.length (String c sep' ++ t))
        by now rewrite E.
      rewrite length_app in H. simpl in H, L. lia.
    + rewrite (split_from_step _ _ _ _ P), IH by (simpl in L; lia).
      rewrite append_assoc. reflexivity.
Qed.

(** Where the separator does not occur, there is one piece. *)
Lemma split_from_no_occurrence (sep cur s : string) :
  ~ occurs sep s -> JS.split_from sep 0 cur s = [cur ++ s].
Proof.
  revert cur. induction s as [| c s IH]; intros cur N.
  - simpl. now rewrite append_nil_r.
  - assert (P : prefix sep (String c s) = false).
    { destruct (prefix sep (String c s)) eqn:P; [| reflexivity].
      elim N. destruct (prefix_inv _ _ P) as [t E]. now exists "", t. }
    rewrite (split_from_step _ _ _ _ P), IH, append_assoc; [reflexivity |].
    intros (a & b & E). apply N. exists (String c a), b. now rewrite E.
Qed.

Lemma occurs_char_cons (c a : ascii) (s : string) :
  occurs (String c "") (String a s) <-> a = c \/ occurs (String c "") s.
Proof.
  split.
  - intros ([| x a'] & b & E); simpl in E; injection E as -> E.
    + now left.
    + right. now exists a', b.
  - intros [-> | (a' & b & ->)].
    + now exists "", s.
    + now exists (String a a'), b.
Qed.

(** Scanning a text without the separating character up to the next one. *)
Lemma split_from_scan (c : ascii) (x cur t : string) :
  ~ occurs (String c "") x ->
  JS.split_from (String c "") 0 cur (x ++ String c t)
  = (cur ++ x) :: JS.split_from (String c "") 0 "" t.
Proof.
  revert cur. induction x as [| a x IH]; intros cur N.
  - rewrite append_nil_r. exact (split_from_match c "" cur t).
  - assert (a <> c /\ ~ occurs (String c "") x) as [Hac Nx].
    { split; intros H; apply N; apply occurs_char_cons; auto. }
    change (String a x ++ String c t) with (String a (x ++ String c t)).
    rewrite split_from_step.
    + rewrite IH by exact Nx. now rewrite append_assoc.
    + simpl. destruct (ascii_dec c a) as [E | _]; [now elim Hac | reflexivity].
Qed.

(** Splitting what was joined gives the list back. *)
Lemma split_concat (c : ascii) (l : list string) :
  l <> [] -> Forall (fun x => ~ occurs (String c "") x) l ->
  JS.split (String.concat (String c "") l) (String c "") = l.
Proof.
  unfold JS.split. induction l as [| x l IH]; intros NE F; [now elim NE |].
  inversion F as [| ? ? Hx Fl]; subst. destruct l as [| y l].
  - simpl. now rewrite split_from_no_occurrence.
  - rewrite concat_cons by discriminate.
    change (String c "" ++ ?r) with (String c r).
    rewrite split_from_scan by exact Hx. simpl (_ ++ x).
    rewrite IH; [reflexivity | discriminate | exact Fl].
Qed.

Lemma occurs_char_snoc (c a : ascii) (cur : string) :
  a <> c -> occurs (String c "") (cur ++ String a "") -> occurs (String c "") cur.
Proof.
  intros Hne. induction cur as [| k cur IH]; simpl; intros O.
  - apply occurs_char_cons in O. destruct O as [E | (x & y & E)].
    + now elim Hne.
    + destruct x; discriminate.
  - apply occurs_char_cons in O. apply occurs_char_cons.
    destruct O as [E | O]; [now left | right; now apply IH].
Qed.

(** No piece contains the separating character. *)
Lemma split_from_pieces (c : ascii) (s cur : string) :
  ~ occurs (String c "") cur ->
  Forall (fun x => ~ occurs (String c "") x) (JS.split_from (String c "") 0 cur s).
Proof.
  revert cur. induction s as [| a s IH]; intros cur N.
  - simpl. constructor; [exact N | constructor].
  - cbn [JS.split_from prefix]. destruct (ascii_dec c a) as [<- | Hne].
    + destruct s; cbn [prefix]; (constructor; [exact N |]);
        simpl; apply IH; intros (x & y & E); destruct x; discriminate.
    + apply IH. intros O. apply N.
      apply (occurs_char_snoc c a); [congruence | exact O].
Qed.

(** ** The cross-origin gate *)

Lemma includes_In (l : list string) (x : string) : includes l x = true <-> In x l.
Proof.
  unfold includes. rewrite existsb_exists. split.
  - intros (y & I & E). apply String.eqb_eq in E. now subst.
  - intros I. exists x. split; [exact I | apply String.eqb_refl].
Qed.

Lemma contains_prefix (sub s : string) : prefix sub s = true -> contains s sub = true.
Proof. intros H. destruct s; cbn [contains]; rewrite H; reflexivity. Qed.

Lemma occurs_contains (sub s : string) : occurs sub s -> contains s sub = true.
Proof.
  intros (a & b & ->). induction a as [| c a IH].
  - change ("" ++ sub ++ b) with (sub ++ b). apply contains_prefix, prefix_app.
  - cbn [append contains]. rewrite IH. apply orb_true_r.
Qed.

(** The decision of the gate: a request passes when it has no [Origin]
    header, an empty one, or one of the listed origins. *)
Lemma cors_origin_passes (allowed : list string) (origin : option string) :
  cors_origin allowed origin = Returned true <->
  origin = None \/ origin = Some "" \/ exists o, origin = Some o /\ In o allowed.
Proof.
  unfold cors_origin. destruct origin as [o |]; [| split; auto].
  cbn [JS.truthy]. rewrite negb_involutive.
  destruct (String.eqb_spec o "") as [-> | Hne]; cbn [orb].
  - split; auto.
  - destruct (includes allowed o) eqn:I.
    + apply includes_In in I. split; eauto.
    + split; [discriminate |].
      intros [H | [H | (o' & H & J)]]; try discriminate.
      * injection H as ->. now elim Hne.
      * injection H as <-. apply includes_In in J. congruence.
Qed.

Lemma cors_origin_refuses (allowed : list string) (origin : option string) :
  cors_origin allowed origin <> Returned true ->
  cors_origin allowed origin = Thrown (Error "Not allowed by CORS").
Proof.
  unfold cors_origin. destruct origin as [o |]; [| now intros H; elim H].
  destruct (negb _ || _); [now intros H; elim H | reflexivity].
Qed.

(** Joining the configured origins with commas gives back the value of
    [ALLOWED_ORIGINS]: [split] loses nothing and adds nothing. *)
Theorem allowed_origins_join_back (s : string) :
  String.concat "," (allowedOrigins (Some s)) = s.
Proof.
  unfold allowedOrigins, JS.split.
  exact (concat_split_from "," "" (String.length s) s "" (le_n _)).
Qed.

(** An [Origin] header that contains a comma is refused whatever the
    configuration: no piece of [ALLOWED_ORIGINS] contains one. *)
Theorem origin_with_comma_is_refused (env : option string) (o : string) :
  occurs "," o ->
  cors_origin (allowedOrigins env) (Some o) = Thrown (Error "Not allowed by CORS").
Proof.
  intros O. apply cors_origin_refuses. intros P.
  apply cors_origin_passes in P. destruct P as [P | [P | (o' & P & I)]].
  - discriminate.
  - injection P as ->. destruct O as (a & b & E). destruct a; discriminate.
  - injection P as <-. destruct env as [s |]; [| exact I].
    unfold allowedOrigins, JS.split in I.
    assert (N : ~ occurs "," "") by (intros (a & b & E); destruct a; discriminate).
    pose proof (split_from_pieces "," s "" N) as F.
    rewrite Forall_forall in F. exact (F _ I O).
Qed.

Lemma origin_with_comma_is_refused_witness :
  cors_origin (allowedOrigins (Some "https://a.example,https://b.example"))
              (Some "https://a.example,https://b.example")
  = Thrown (Error "Not allowed by CORS").
Proof.
  apply origin_with_comma_is_refused.
  exists "https://a.example", "https://b.example". reflexivity.
Defined.

(** When [ALLOWED_ORIGINS] lists origins that contain no comma, separated
    by commas, the requests let through are those without an [Origin]
    header, those with an empty one, and those whose origin is, character
    for character, one of the listed ones. *)
Theorem listed_origins_are_the_allowed_ones (l : list string) (origin : option string) :
  Forall (fun x => ~ occurs "," x) l ->
  (cors_origin (allowedOrigins (Some (String.concat "," l))) origin = Returned true
   <-> origin = None \/ origin = Some "" \/ exists o, origin = Some o /\ In o l).
Proof.
  intros F. rewrite cors_origin_passes. destruct l as [| x l].
  - simpl. split; intros [H | [H | (o & H & I)]]; auto.
    + destruct I as [<- | []]. auto.
    + destruct I.
  - unfold allowedOrigins.
    rewrite (split_concat "," (x :: l)) by (discriminate || exact F).
    reflexivity.
Qed.

Lemma listed_origins_are_the_allowed_ones_witness :
  cors_origin (allowedOrigins (Some "https://a.example,https://b.example"))
              (Some "https://b.example") = Returned true.
Proof.
  apply (listed_origins_are_the_allowed_ones
           [ "https://a.example"; "https://b.example" ] (Some "https://b.example")).
  - repeat constructor; intros O; apply occurs_contains in O; discriminate O.
  - right. right. exists "https://b.example". split; [reflexivity |].
    simpl. right. left. reflexivity.
Defined.

(** With [ALLOWED_ORIGINS] unset, a request passes only if it comes without
    an [Origin] header or with an empty one: every browser origin is
    refused. *)
Theorem unset_origins_refuse_every_origin (origin : option string) :
  (cors_origin (allowedOrigins None) origin = Returned true
   <-> origin = None \/ origin = Some "") /\
  (forall o, origin = Some o -> o <> "" ->
     cors_origin (allowedOrigins None) origin = Thrown (Error "Not allowed by CORS")).
Proof.
  split.
  - rewrite cors_origin_passes. simpl. split; [| tauto].
    intros [H | [H | (o & _ & [])]]; auto.
  - intros o -> Hne. apply cors_origin_refuses. intros P.
    apply cors_origin_passes in P. destruct P as [P | [P | (o' & _ & [])]].
    + discriminate.
    + injection P as ->. now elim Hne.
Qed.

(** ** The handler as a whole *)

Lemma assoc_In {A : Type} (k : string) (l : list (string * A)) (v : A) :
  JS.assoc k l = Some v -> In (k, v) l.
Proof.
  induction l as [| [k' v'] l IH]; simpl; [discriminate |].
  destruct (String.eqb_spec k' k) as [-> | _].
  - intros E. injection E as ->. now left.
  - intros E. right. now apply IH.
Qed.

Lemma assoc_none_inv (k : string) (l : list (string * string)) :
  JS.assoc k l = None -> ~ In k (map fst l).
Proof.
  induction l as [| [k' v] l IH]; simpl; [tauto |].
  destruct (String.eqb_spec k' k) as [-> | Hne]; [discriminate |].
  intros E [H | H]; [now elim Hne | now apply IH].
Qed.

Section Whole.

Variable w : world.

(** The resolver reads only the [Authorization] header of the request. *)
Lemma getUserApiKey_header_only (req req' : request) :
  authorization req = authorization req' ->
  getUserApiKey w req = getUserApiKey w req'.
Proof. intros H. unfold getUserApiKey. rewrite H. reflexivity. Qed.

(** The external calls of the resolver: none, the verification, or the
    verification and the document read. *)
Lemma getUserApiKey_calls (req : request) :
  trace (getUserApiKey w req) = [] \/
  (exists tok, trace (getUserApiKey w req) = [VerifyIdToken tok]) \/
  (exists tok uid, trace (getUserApiKey w req) = [VerifyIdToken tok; FirestoreGet uid]).
Proof.
  destruct (gate_cases req) as [G | (h & Ha & Hp)].
  - left. rewrite (getUserApiKey_closed _ _ G). reflexivity.
  - right. rewrite (getUserApiKey_open _ _ _ Ha Hp). cbv zeta.
    destruct (verifyIdToken w _) as [m | uid]; [left; eexists; reflexivity |].
    right. destruct (users w uid) as [m | [d |]]; try (do 2 eexists; reflexivity).
    destruct (JS.truthy (stored_key d)); do 2 eexists; reflexivity.
Qed.

(** The three ways a request can end. *)
Lemma handler_ends (req : request) :
  (exists m, handler w req = (trace (getUserApiKey w req), Returned (failure m))) \/
  (handler w req = (trace (getUserApiKey w req), Returned unknown_service) /\
   exists key, result (getUserApiKey w req) = Returned key /\
               JS.lookup serviceMap (service req) = JS.Undefined) \/
  (exists u p hs,
     handler w req
     = ((trace (getUserApiKey w req) ++ [HttpPost u p hs])%list,
        Returned (settle (downstream w u p hs)))).
Proof.
  destruct (getUserApiKey w req) as [t [key | e]] eqn:G; unfold trace, result; cbn [fst snd].
  2:{ left. exists (message e). apply (handler_thrown _ _ _ _ G). }
  destruct (lookup_cases (service req))
    as [(u & _ & L & _) | [(_ & _ & L) | (_ & _ & L)]].
  - destruct (file req) as [f |] eqn:F.
    + destruct (JS.entries (body req)) as [es |] eqn:E.
      * pose proof (append_fields_trace w es [image_part f]) as Tr. unfold trace in Tr.
        destruct (append_fields w [image_part f] es) as [t' [form | e]] eqn:A;
          simpl in Tr; subst t'.
        -- right. right. do 3 eexists. apply (handler_form _ _ _ _ _ _ _ _ G L F E A).
        -- left. apply (handler_form_refused w req t key u f G L F).
           right. exists es, e. split; [exact E | exact A].
      * left. apply (handler_form_refused w req t key u f G L F). left. exact E.
    + right. right. do 3 eexists. apply (handler_json _ _ _ _ _ G L F).
  - left. apply (handler_builtin w req t key _ G L).
  - right. left. split; [apply (handler_unknown _ _ _ _ G L) |].
    exists key. split; [reflexivity | exact L].
Qed.

End Whole.

(** A request makes at most three external calls, in a fixed order: the
    token verification, then the read of the user document, then one
    downstream call.  The document store is read only after a
    verification and a downstream service is called only after both. *)
Theorem external_calls_are_ordered (w : world) (req : request) :
  trace (handler w req) = [] \/
  (exists tok, trace (handler w req) = [VerifyIdToken tok]) \/
  (exists tok uid, trace (handler w req) = [VerifyIdToken tok; FirestoreGet uid]) \/
  (exists tok uid u p hs,
     trace (handler w req)
     = [VerifyIdToken tok; FirestoreGet uid; HttpPost u p hs]).
Proof.
  destruct (handler_ends w req) as [[m H] | [[H _] | (u & p & hs & H)]].
  - rewrite H. cbn [trace fst].
    destruct (getUserApiKey_calls w req) as [C | [C | C]]; auto.
  - rewrite H. cbn [trace fst].
    destruct (getUserApiKey_calls w req) as [C | [C | C]]; auto.
  - right. right. right.
    pose proof (getUserApiKey_no_post w req) as NP.
    destruct (getUserApiKey w req) as [t [key | e]] eqn:G.
    + destruct (getUserApiKey_returned _ _ _ _ G) as (h & uid & d & _ & _ & _ & _ & _ & _ & ->).
      rewrite H. do 5 eexists. reflexivity.
    + rewrite (handler_thrown _ _ _ _ G) in H. unfold trace in H, NP.
      cbn [fst] in H, NP. injection H as H _.
      assert (I : In (HttpPost u p hs) t).
      { rewrite H. apply in_or_app. right. now left. }
      now elim (no_post_not_in _ _ _ _ NP I).
Qed.

(** Errors of the two identity services come out as they are: when the
    provider rejects the token, the reply is 500 with the provider's
    message and the document store is not read; when the document read
    fails, the reply is 500 with the store's message.  No downstream call
    is made in either case. *)
Theorem identity_service_errors_surface
    (w : world) (req : request) (h : string) :
  authorization req = Some h ->
  JS.startsWith h "Bearer " = true ->
  (forall m, verifyIdToken w (JS.index (JS.split h "Bearer ") 1) = inl m ->
     handler w req
     = ([ VerifyIdToken (JS.index (JS.split h "Bearer ") 1) ],
        Returned (failure m))) /\
  (forall uid m,
     verifyIdToken w (JS.index (JS.split h "Bearer ") 1) = inr uid ->
     users w uid = inl m ->
     handler w req
     = ([ VerifyIdToken (JS.index (JS.split h "Bearer ") 1); FirestoreGet uid ],
        Returned (failure m))).
Proof.
  intros Ha Hp.
  pose proof (getUserApiKey_open w req h Ha Hp) as G. cbv zeta in G. split.
  - intros m V. rewrite V in G. rewrite (handler_thrown _ _ _ _ G). reflexivity.
  - intros uid m V U. rewrite V, U in G.
    rewrite (handler_thrown _ _ _ _ G). reflexivity.
Qed.

Lemma identity_service_errors_surface_witness :
  handler Sample.ok (Sample.json_request (Some "Bearer expired") "vectors")
  = ([ VerifyIdToken (JS.Str "expired") ],
     Returned (failure "Decoding Firebase ID token failed.")) /\
  handler Cases.store_down (Sample.json_request (Some "Bearer t1") "vectors")
  = ([ VerifyIdToken (JS.Str "t1"); FirestoreGet "u1" ],
     Returned (failure "14 UNAVAILABLE: No connection established")).
Proof.
  split.
  - apply (proj1 (identity_service_errors_surface Sample.ok
                    (Sample.json_request (Some "Bearer expired") "vectors")
                    "Bearer expired" eq_refl eq_refl)).
    reflexivity.
  - apply (proj2 (identity_service_errors_surface Cases.store_down
                    (Sample.json_request (Some "Bearer t1") "vectors")
                    "Bearer t1" eq_refl eq_refl)); reflexivity.
Defined.

(** The 400 [Unknown service] reply is given to authenticated callers
    only: it implies that the identity was resolved (token verified,
    record read, key found), that the name is not in the route table, and
    that nothing was called after the resolver. *)
Theorem unknown_service_implies_identity (w : world) (req : request) :
  result (handler w req) = Returned unknown_service ->
  exists t key,
    getUserApiKey w req = (t, Returned key) /\
    ~ In (service req) (map fst serviceMap) /\
    trace (handler w req) = t.
Proof.
  intros R. destruct (handler_ends w req) as [[m H] | [[H (key & K & L)] | (u & p & hs & H)]].
  - rewrite H in R. discriminate.
  - destruct (getUserApiKey w req) as [t o] eqn:G. cbn [result snd] in K. subst o.
    exists t, key. split; [reflexivity |]. split.
    + apply assoc_none_inv. unfold JS.lookup in L.
      destruct (JS.assoc (service req) serviceMap); [discriminate | reflexivity].
    + rewrite H. reflexivity.
  - rewrite H in R. unfold result, settle in R. cbn [snd] in R.
    destruct (downstream w u p hs) as [m | r]; [discriminate |].
    destruct (validateStatus (status r)); discriminate.
Qed.

Lemma unknown_service_implies_identity_witness :
  exists t key,
    getUserApiKey Sample.ok (Sample.json_request (Some "Bearer t1") "nope")
    = (t, Returned key) /\
    ~ In "nope" (map fst serviceMap) /\
    trace (handler Sample.ok (Sample.json_request (Some "Bearer t1") "nope")) = t.
Proof.
  apply (unknown_service_implies_identity Sample.ok
           (Sample.json_request (Some "Bearer t1") "nope")).
  reflexivity.
Defined.

(** A caller whose identity does not resolve learns nothing about the
    routes: the reply and the external calls are the same whatever the
    service name, the body and the file of the request. *)
Theorem unresolved_identity_hides_routes
    (w : world) (req req' : request) (t : list event) (e : error) :
  getUserApiKey w req = (t, Thrown e) ->
  authorization req' = authorization req ->
  handler w req' = handler w req /\
  handler w req = (t, Returned (failure (message e))).
Proof.
  intros G A. pose proof (getUserApiKey_header_only w req' req A) as G'.
  rewrite G in G'.
  rewrite (handler_thrown _ _ _ _ G), (handler_thrown _ _ _ _ G'). split; reflexivity.
Qed.

Lemma unresolved_identity_hides_routes_witness :
  handler Sample.ok (Sample.form_request (Some "Bearer t2") "nope")
  = handler Sample.ok (Sample.json_request (Some "Bearer t2") "vectors") /\
  handler Sample.ok (Sample.json_request (Some "Bearer t2") "vectors")
  = ([ VerifyIdToken (JS.Str "t2"); FirestoreGet "u2" ],
     Returned (failure "User not found in Firestore")).
Proof.
  apply (unresolved_identity_hides_routes Sample.ok
           (Sample.json_request (Some "Bearer t2") "vectors")
           (Sample.form_request (Some "Bearer t2") "nope")
           [ VerifyIdToken (JS.Str "t2"); FirestoreGet "u2" ]
           (Error "User not found in Firestore")); reflexivity.
Defined.

(** The target of every downstream call is the URL the route table gives
    for the service of the request: nothing in the headers or the body can
    send the call elsewhere. *)
Theorem outbound_url_is_the_route
    (w : world) (req : request) (u : string) (p : payload) (hs : header_list) :
  In (HttpPost u p hs) (trace (handler w req)) ->
  In (service req, u) serviceMap.
Proof.
  intros I. destruct (handler_post w req u p hs I) as (t & key & _ & L & _).
  apply assoc_In. unfold JS.lookup in L.
  destruct (JS.assoc (service req) serviceMap) as [u' |].
  - injection L as ->. reflexivity.
  - destruct (JS.mem _ _); discriminate.
Qed.

Lemma outbound_url_is_the_route_witness :
  In ("contact", "https://endless-bureaucracy.onrender.com/contact") serviceMap.
Proof.
  apply (outbound_url_is_the_route Sample.ok
           (Sample.json_request (Some "Bearer t1") "contact")
           "https://endless-bureaucracy.onrender.com/contact"
           (JsonData (JS.Obj [ ("a", JS.Num "1") ])) (json_headers (JS.Str "k-1"))).
  simpl. right. right. left. reflexivity.
Defined.

(** No downstream call goes out without a secret: the [x-api-key] header
    of every call is present and truthy (not the empty string, not
    [undefined]). *)
Theorem outbound_key_is_never_empty
    (w : world) (req : request) (u : string) (p : payload) (hs : header_list) :
  In (HttpPost u p hs) (trace (handler w req)) ->
  exists key, JS.assoc "x-api-key" hs = Some key /\ JS.truthy key = true.
Proof.
  intros I. destruct (handler_post w req u p hs I) as (t & key & G & _ & _ & M).
  destruct (getUserApiKey_returned _ _ _ _ G) as (_ & _ & _ & _ & _ & _ & _ & _ & T & _).
  exists key. split; [| exact T].
  destruct M as [(_ & _ & ->) | (f & es & parts & _ & _ & _ & _ & ->)]; reflexivity.
Qed.

Lemma outbound_key_is_never_empty_witness :
  exists key,
    JS.assoc "x-api-key" (form_headers Sample.ok (JS.Str "k-1")) = Some key /\
    JS.truthy key = true.
Proof.
  apply (outbound_key_is_never_empty Sample.ok
           (Sample.form_request (Some "Bearer t1") "images")
           "https://endless-images-second-life.onrender.com/convert"
           (FormData [ image_part Sample.picture;
                       {| field := "caption"; content := Text "x"; filename := None |} ])).
  simpl. right. right. left. reflexivity.
Defined.

(** The bytes of a successful reply are downstream bytes: a reply sent
    with [res.send] implies a downstream call that was answered with a
    status in the 2xx range, and carries the body and the content type of
    that answer. *)
Theorem sent_bytes_come_from_downstream
    (w : world) (req : request) (ct : JS.value) (bytes : list Byte.byte) :
  result (handler w req) = Returned (Send ct bytes) ->
  exists u p hs r,
    In (HttpPost u p hs) (trace (handler w req)) /\
    downstream w u p hs = inr r /\
    (200 <= status r < 300)%Z /\
    ct = header r "content-type" /\ bytes = data r.
Proof.
  intros R. destruct (handler_ends w req) as [[m H] | [[H _] | (u & p & hs & H)]].
  - rewrite H in R. discriminate.
  - rewrite H in R. discriminate.
  - rewrite H in R |- *. unfold result, settle in R. cbn [snd] in R.
    destruct (downstream w u p hs) as [m | r] eqn:D; [discriminate |].
    destruct (validateStatus (status r)) eqn:V; [| discriminate].
    injection R as <- <-. exists u, p, hs, r.
    split; [| split; [exact D | split; [| split; reflexivity]]].
    + cbn [trace fst]. apply in_or_app. right. now left.
    + apply validateStatus_spec. exact V.
Qed.

Lemma sent_bytes_come_from_downstream_witness :
  exists u p hs r,
    In (HttpPost u p hs)
       (trace (handler Sample.ok (Sample.json_request (Some "Bearer t1") "vectors"))) /\
    downstream Sample.ok u p hs = inr r /\
    (200 <= status r < 300)%Z /\
    JS.Str "image/png" = header r "content-type" /\
    [ Byte.x89; Byte.x50; Byte.x4e; Byte.x47 ] = data r.
Proof.
  apply (sent_bytes_come_from_downstream Sample.ok
           (Sample.json_request (Some "Bearer t1") "vectors")).
  reflexivity.
Defined.

(** When a 2xx answer has no [content-type] header, the handler passes
    [undefined] to [res.set("Content-Type", ...)] and still sends the
    bytes with status 200. *)
Theorem missing_content_type_is_undefined
    (w : world) (req : request) (u : string) (p : payload) (hs : header_list)
    (r : http_response) :
  In (HttpPost u p hs) (trace (handler w req)) ->
  downstream w u p hs = inr r ->
  (200 <= status r < 300)%Z ->
  JS.assoc "content-type" (headers r) = None ->
  result (handler w req) = Returned (Send JS.Undefined (data r)).
Proof.
  intros I D S C. destruct (handler_post w req u p hs I) as (t & key & _ & _ & H & _).
  rewrite H, D. unfold result, settle, header. cbn [snd].
  apply validateStatus_spec in S. rewrite S, C. reflexivity.
Qed.

Lemma missing_content_type_is_undefined_witness :
  result (handler (Sample.world_with (inr Cases.bare))
            (Sample.json_request (Some "Bearer t1") "profilename"))
  = Returned (Send JS.Undefined []).
Proof.
  apply (missing_content_type_is_undefined (Sample.world_with (inr Cases.bare))
           (Sample.json_request (Some "Bearer t1") "profilename")
           "https://endless-bureaucracy.onrender.com/update-profile-name"
           (JsonData (JS.Obj [ ("a", JS.Num "1") ])) (json_headers (JS.Str "k-1"))
           Cases.bare).
  - simpl. right. right. left. reflexivity.
  - reflexivity.
  - simpl. lia.
  - reflexivity.
Defined.

(** The gateway answers with one of three statuses, 200, 400 or 500, and
    always answers: the status of the downstream response is never the
    status of the reply. *)
Theorem reply_status_is_200_400_or_500 (w : world) (req : request) :
  exists r,
    result (handler w req) = Returned r /\
    (reply_status r = 200 \/ reply_status r = 400 \/ reply_status r = 500)%Z.
Proof.
  destruct (handler_ends w req) as [[m H] | [[H _] | (u & p & hs & H)]];
    rewrite H; unfold result; cbn [snd]; eexists; (split; [reflexivity |]).
  - right. right. reflexivity.
  - right. left. reflexivity.
  - unfold settle. destruct (downstream w u p hs) as [m | r].
    + right. right. reflexivity.
    + destruct (validateStatus (status r)); [left | right; right]; reflexivity.
Qed.

(** ** Form mode: which requests are sent *)

Lemma field_part_text (e : string * JS.value) (p : part) :
  field_part e p -> field_text (snd e) <> None.
Proof. intros [k v s T]. simpl. rewrite T. discriminate. Qed.

(** The loop stops at the first array value. *)
Lemma append_fields_array (w : world) (texts rest : list (string * JS.value))
    (k : string) (items : list JS.value) (form : list part) :
  Forall (fun e => field_text (snd e) <> None) texts ->
  append_fields w form (texts ++ (k, JS.Arr items) :: rest)%list
  = ([], Thrown (Error "Arrays are not supported.")).
Proof.
  intros F. revert form. induction F as [| [k' v] texts Hv F IH]; intros form.
  - reflexivity.
  - cbn [app append_fields]. unfold form_append.
    destruct v; simpl in Hv; try (now elim Hv);
      unfold bind, ret; cbn iota; rewrite IH; reflexivity.
Qed.

(** For an authenticated, routed request with a file, the downstream call
    is made exactly when every field of the body is a string or a number;
    otherwise the form cannot be built and nothing is sent. *)
Theorem form_is_sent_iff_fields_are_text
    (w : world) (req : request) (t : list event) (key : JS.value) (u : string)
    (f : upload) (es : list (string * JS.value)) :
  getUserApiKey w req = (t, Returned key) ->
  JS.lookup serviceMap (service req) = JS.Str u ->
  file req = Some f ->
  JS.entries (body req) = Some es ->
  ((exists p hs, In (HttpPost u p hs) (trace (handler w req)))
   <-> Forall (fun e => field_text (snd e) <> None) es).
Proof.
  intros G L F E. split.
  - intros (p & hs & I).
    destruct (handler_post w req u p hs I) as (t' & key' & _ & _ & _ & M).
    destruct M as [(F' & _) | (f' & es' & parts & _ & E' & F2 & _)].
    + rewrite F in F'. discriminate.
    + rewrite E in E'. injection E' as <-. clear - F2.
      induction F2 as [| e q es parts Hq _ IH]; constructor.
      * exact (field_part_text _ _ Hq).
      * exact IH.
  - intros T. destruct (append_fields_text w es [image_part f] T) as (parts & _ & A).
    do 2 eexists. rewrite (handler_form _ _ _ _ _ _ _ _ G L F E A).
    cbn [trace fst]. apply in_or_app. right. now left.
Qed.

Lemma form_is_sent_iff_fields_are_text_witness :
  (exists p hs,
     In (HttpPost "https://endless-images-second-life.onrender.com/convert" p hs)
        (trace (handler Sample.ok (Sample.form_request (Some "Bearer t1") "images"))))
  <-> Forall (fun e => field_text (snd e) <> None) [ ("caption", JS.Str "x") ].
Proof.
  apply (form_is_sent_iff_fields_are_text Sample.ok
           (Sample.form_request (Some "Bearer t1") "images")
           [ VerifyIdToken (JS.Str "t1"); FirestoreGet "u1" ] (JS.Str "k-1")
           "https://endless-images-second-life.onrender.com/convert"
           Sample.picture); reflexivity.
Defined.

(** A field sent more than once reaches the handler as an array; when the
    first field that is not text is an array, the request is answered 500
    with the encoder's message [Arrays are not supported.] and no
    downstream call is made. *)
Theorem array_field_is_refused
    (w : world) (req : request) (t : list event) (key : JS.value) (u : string)
    (f : upload) (texts rest : list (string * JS.value)) (k : string)
    (items : list JS.value) :
  getUserApiKey w req = (t, Returned key) ->
  JS.lookup serviceMap (service req) = JS.Str u ->
  file req = Some f ->
  JS.entries (body req) = Some (texts ++ (k, JS.Arr items) :: rest)%list ->
  Forall (fun e => field_text (snd e) <> None) texts ->
  handler w req = (t, Returned (failure "Arrays are not supported.")).
Proof.
  intros G L F E T. rewrite (handler_resolved _ _ _ _ G). cbv zeta.
  destruct (lookup_cases (service req))
    as [(u' & _ & _ & Tr) | [(_ & _ & B) | (_ & _ & B)]];
    [| rewrite B in L; discriminate | rewrite B in L; discriminate].
  rewrite Tr, L, F, sendFormRequest_file, E, (append_fields_array w _ _ _ _ _ T).
  simpl. rewrite app_nil_r. reflexivity.
Qed.

Lemma array_field_is_refused_witness :
  handler Sample.ok Cases.tagged_request
  = ([ VerifyIdToken (JS.Str "t1"); FirestoreGet "u1" ],
     Returned (failure "Arrays are not supported.")).
Proof.
  apply (array_field_is_refused Sample.ok Cases.tagged_request
           [ VerifyIdToken (JS.Str "t1"); FirestoreGet "u1" ] (JS.Str "k-1")
           "https://endless-images-second-life.onrender.com/convert"
           Sample.picture [ ("caption", JS.Str "x") ] [] "tag"
           [ JS.Str "a"; JS.Str "b" ]); try reflexivity.
  repeat constructor; discriminate.
Defined.

(** ** The earlier variant, in general *)

Lemma assoc_app {A : Type} (k : string) (l1 l2 : list (string * A)) :
  JS.assoc k (l1 ++ l2)
  = match JS.assoc k l1 with
    | Some v => Some v
    | None => JS.assoc k l2
    end.
Proof.
  induction l1 as [| [k' v] l1 IH]; simpl; [reflexivity |].
  destruct (k' =? k); [reflexivity | exact IH].
Qed.

(** The routes [src/index.js] has and [src/unnamed/part_000] has not. *)
Lemma lookup_before_code_tools (s : string) :
  ~ In s [ "codedetect"; "codecompact"; "codeuncompact"; "codeformat" ] ->
  JS.lookup Part000.serviceMap s = JS.lookup serviceMap s.
Proof.
  intros N. unfold JS.lookup.
  change serviceMap with
    (Part000.serviceMap ++
     [ ("codedetect", "https://endless-code-tools-api.onrender.com/detect");
       ("codecompact", "https://endless-code-tools-api.onrender.com/compact");
       ("codeuncompact", "https://endless-code-tools-api.onrender.com/uncompact");
       ("codeformat", "https://endless-code-tools-api.onrender.com/format") ])%list.
  rewrite assoc_app, (assoc_none s (_ :: _)) by exact N.
  destruct (JS.assoc s Part000.serviceMap); reflexivity.
Qed.

Section Variant.

Variable w : world.





End Variant.



(** For a request with a file whose service is not one of the four code
    tools, the two versions of the handler do the same thing: same
    external calls, same reply. *)
Theorem handlers_agree_on_uploads (w : world) (req : request) (f : upload) :
  file req = Some f ->
  ~ In (service req) [ "codedetect"; "codecompact"; "codeuncompact"; "codeformat" ] ->
  Part000.handler w req = handler w req.
Proof.
  intros F N. unfold Part000.handler, handler.
  rewrite (lookup_before_code_tools _ N), F. reflexivity.
Qed.

Lemma handlers_agree_on_uploads_witness :
  Part000.handler Sample.ok (Sample.form_request (Some "Bearer t1") "profilepicture")
  = handler Sample.ok (Sample.form_request (Some "Bearer t1") "profilepicture").
Proof.
  apply (handlers_agree_on_uploads Sample.ok
           (Sample.form_request (Some "Bearer t1") "profilepicture") Sample.picture).
  - reflexivity.
  - simpl. intros H. repeat (destruct H as [H | H]; [discriminate H |]). exact H.
Defined.
